(** * Spark Job Monitor: the consumer (spark-ui) and the generator it reads from

    A shallow embedding of the TypeScript front end found under
    [spark-ui/src] (the API hooks, the Jobs view, the dashboard and the
    navigation bar) together with a model of the parts of the data generator
    that the specification describes and that the front end depends on.

    Conventions.
    - A JavaScript [number] that holds a count, a page index or a page size is
      an integer; it is modelled by [Z].  Below 2^53 in magnitude, addition,
      subtraction and multiplication of such numbers are exact in binary64, so
      [Z] arithmetic is what the code computes.
    - Where the code divides, the operands are turned into IEEE-754 binary64
      values (the kernel's primitive floats) and the division and
      multiplication are the hardware ones.
    - An HTTP call is an explicit event of a small request monad, so that the
      requests a handler issues can be collected and inspected. *)

From Stdlib Require Import ZArith QArith Lia List Permutation Sorted Ascii String.
From Stdlib Require Import Floats.
From stdpp Require Import gmap strings list pretty.
Import ListNotations.

Local Open Scope string_scope.
Local Open Scope Z_scope.

(* ===================================================================== *)
(** * JavaScript values used by the front end *)
(* ===================================================================== *)

Module Js.

(** [Number(z)] for an integer literal: the nearest binary64 value. *)
Definition of_Z (z : Z) : float :=
  SF2Prim (binary_normalize prec emax z 0 false).

(** The nearest integer to [m * 2^e * 10^f]; of two nearest ones the larger
    (step "let n be an integer for which n / 10^f - x is as close to zero as
    possible; if there are two such n, pick the larger n"). *)
Definition nearest_scaled (m : positive) (e : Z) (f : nat) : Z :=
  let num := Z.pos m * 10 ^ Z.of_nat f in
  if 0 <=? e then num * 2 ^ e
  else let d := 2 ^ (- e) in (2 * num + d) / (2 * d).

(** [m * 2^e >= 10^21] *)
Definition at_least_1e21 (m : positive) (e : Z) : bool :=
  if 0 <=? e then 10 ^ 21 <=? Z.pos m * 2 ^ e
  else 10 ^ 21 * 2 ^ (- e) <=? Z.pos m.

Fixpoint zeros (k : nat) : string :=
  match k with O => "" | S k' => String "0"%char (zeros k') end.

(** Steps 11.b-11.c of [Number.prototype.toFixed]: the digits of [n] with a
    decimal point before the last [f] of them. *)
Definition place_point (n : Z) (f : nat) : string :=
  let m := pretty (Z.to_N n) in
  match f with
  | O => m
  | _ =>
      let k := String.length m in
      let m' := if (k <=? f)%nat then zeros (f + 1 - k) +:+ m else m in
      let k' := String.length m' in
      substring 0 (k' - f) m' +:+ "." +:+ substring (k' - f) f m'
  end.

(** [x.toFixed(f)] for [0 <= f <= 100].  A value that is not finite prints
    as [Number::toString] prints it.  For a finite value of magnitude at
    least 10^21 the result is [Number::toString(x)] in exponent notation,
    which is not modelled here: the function answers [None] there. *)
Definition toFixed (x : float) (f : nat) : option string :=
  match Prim2SF x with
  | S754_nan => Some "NaN"
  | S754_infinity false => Some "Infinity"
  | S754_infinity true => Some "-Infinity"
  | S754_zero _ => Some (place_point 0 f)
  | S754_finite s m e =>
      if at_least_1e21 m e then None
      else
        let body := place_point (nearest_scaled m e f) f in
        Some (if s then "-" +:+ body else body)
  end.

(** [s.replace(/_/g, " ")] *)
Fixpoint replace_underscores (s : string) : string :=
  match s with
  | EmptyString => EmptyString
  | String c rest =>
      String (if Ascii.eqb c "_"%char then " "%char else c) (replace_underscores rest)
  end.

(** Truthiness of a value of type [string | undefined]. *)
Definition truthy (s : option string) : bool :=
  match s with
  | None => false
  | Some v => negb (String.eqb v "")
  end.

(** [Math.ceil(a / b)] for integers [a] and [b > 0].  (For divisors up to 100
    the binary64 quotient rounds up to the same integer as the exact one as
    long as [a] stays below 2^49.) *)
Definition ceil_div (a b : Z) : Z := - ((- a) / b).

(** The [Error] a failed query hands to the component. *)
Record Error := mkError { message : string }.

(** [error?.message || "No data"]: the text shown in place of the page.  The
    fallback is taken when there is no error object and when its message is
    the empty string. *)
Definition failure_text (error : option Error) : string :=
  let text := match error with Some e => Some (message e) | None => None end in
  match text with
  | Some m => if truthy text then m else "No data"
  | None => "No data"
  end.

End Js.

(* ===================================================================== *)
(** * HTTP requests as events *)
(* ===================================================================== *)

Module Http.

Inductive Method := GET | POST | PUT | PATCH | DELETE.

(** A query-string value: [string | number]. *)
Inductive ParamValue :=
| PStr (s : string)
| PNum (n : Z).

Record Request := mkRequest {
  method : Method;
  baseURL : string;
  headers : list (string * string);
  url : string;
  params : gmap string ParamValue
}.

(** A computation that awaits responses of type [R] and ends with an [A]. *)
Inductive t (R A : Type) : Type :=
| Done (a : A)
| Await (rq : Request) (k : R -> t R A).
Arguments Done {R A} a.
Arguments Await {R A} rq k.

Fixpoint bind {R A B} (m : t R A) (f : A -> t R B) : t R B :=
  match m with
  | Done a => f a
  | Await rq k => Await rq (fun r => bind (k r) f)
  end.

(** Running against a server: the requests sent, in order, and the result. *)
Fixpoint run {R A} (server : Request -> R) (m : t R A) : list Request * A :=
  match m with
  | Done a => ([], a)
  | Await rq k =>
      let '(sent, a) := run server (k (server rq)) in (rq :: sent, a)
  end.

Definition requests {R A} (server : Request -> R) (m : t R A) : list Request :=
  fst (run server m).

Definition result {R A} (server : Request -> R) (m : t R A) : A :=
  snd (run server m).

(** Running against a backend that holds a store [S]: serving a request may
    read and change the store.  The result and the store afterwards. *)
Fixpoint exec {S R A} (serve : Request -> S -> R * S) (m : t R A) (s : S)
  : A * S :=
  match m with
  | Done a => (a, s)
  | Await rq k => let '(r, s') := serve rq s in exec serve (k r) s'
  end.

End Http.

#[global] Instance http_ret {R} : MRet (Http.t R) := fun A a => Http.Done a.
#[global] Instance http_bind {R} : MBind (Http.t R) := fun A B f m => Http.bind m f.

(* ===================================================================== *)
(** * src/api: the axios client and the query hooks *)
(* ===================================================================== *)

Module Api.
Import Http.

(** [defaultOptions] of the client module. *)
Definition default_baseURL : string := "http://localhost:3001/api".
Definition default_headers : list (string * string) :=
  [("Content-Type", "application/json"); ("Accept", "application/json")].

(** [client.get<R>(url, { params })] of a client made by [useClient]. *)
Definition client_get {R} (url : string) (params : gmap string ParamValue)
  : Http.t R R :=
  Await (mkRequest GET default_baseURL default_headers url params) Done.

(** ** api/jobs.ts *)

Record Job := mkJob {
  job_id : string;
  job_name : string;
  job_type : string;
  status : string;
  start_time : string;
  end_time : string;
  duration_seconds : float;
  num_stages : float;
  num_tasks : float;
  num_executors : float;
  input_size_mb : float;
  output_size_mb : float;
  memory_per_executor_mb : float;
  total_memory_mb : float;
  cpu_cores_per_executor : float;
  shuffle_read_mb : float;
  shuffle_write_mb : float;
  gc_time_ms : float;
  duration_formatted : string
}.

Inductive TsType := TsString | TsNumber.

(** The members of [interface Job], in declaration order. *)
Definition Job_members : list (string * TsType) :=
  [ ("job_id", TsString); ("job_name", TsString); ("job_type", TsString);
    ("status", TsString); ("start_time", TsString); ("end_time", TsString);
    ("duration_seconds", TsNumber); ("num_stages", TsNumber);
    ("num_tasks", TsNumber); ("num_executors", TsNumber);
    ("input_size_mb", TsNumber); ("output_size_mb", TsNumber);
    ("memory_per_executor_mb", TsNumber); ("total_memory_mb", TsNumber);
    ("cpu_cores_per_executor", TsNumber); ("shuffle_read_mb", TsNumber);
    ("shuffle_write_mb", TsNumber); ("gc_time_ms", TsNumber);
    ("duration_formatted", TsString) ].

Record Pagination := mkPagination {
  total : Z;
  limit : Z;
  offset : Z
}.

Record JobsResponse := mkJobsResponse {
  jobs : list Job;
  pagination : Pagination
}.

(** [UseJobsParams]: [status] and [job_type] are optional. *)
Record UseJobsParams := mkUseJobsParams {
  p_limit : Z;
  p_offset : Z;
  p_status : option string;
  p_job_type : option string
}.

(** [if (v && v !== "ALL") params[key] = v] *)
Definition set_filter (key : string) (v : option string)
    (params : gmap string ParamValue) : gmap string ParamValue :=
  match v with
  | Some s =>
      if Js.truthy v && negb (String.eqb s "ALL")
      then <[key := PStr s]> params
      else params
  | None => params
  end.

(** The [params] object that [queryFn] of [useJobs] builds. *)
Definition useJobs_params (a : UseJobsParams) : gmap string ParamValue :=
  let params : gmap string ParamValue :=
    <["offset" := PNum (p_offset a)]> (<["limit" := PNum (p_limit a)]> ∅) in
  let params := set_filter "status" (p_status a) params in
  let params := set_filter "job_type" (p_job_type a) params in
  params.

(** [queryFn] of [useJobs]. *)
Definition useJobs_queryFn (a : UseJobsParams) : Http.t JobsResponse JobsResponse :=
  response ← client_get "/jobs" (useJobs_params a);
  mret response.

(** [queryFn] of [useJobTypes]; the response is [{ job_types: string[] }]. *)
Definition useJobTypes_queryFn : Http.t (list string) (list string) :=
  response ← client_get "/job-types" ∅;
  mret response.

(** ** api/stats.ts *)

Record Overview := mkOverview {
  total_jobs : Z;
  completed_jobs : Z;
  failed_jobs : Z;
  running_jobs : Z;
  success_rate : float
}.

Record Performance := mkPerformance {
  avg_duration_seconds : float;
  avg_duration_formatted : string;
  total_data_processed_mb : float;
  total_data_processed_gb : float
}.

Record RecentActivity := mkRecentActivity {
  jobs_last_24h : Z;
  failures_last_24h : Z
}.

Record ErrorTotals := mkErrorTotals {
  total_errors : Z;
  total_warnings : Z
}.

(** [job_types] is a [Record<string, number>]; it is kept as the list of its
    own enumerable entries in property order, which is what
    [Object.entries] returns.  [None] is a response without the member. *)
Record StatsResponse := mkStatsResponse {
  overview : Overview;
  performance : Performance;
  job_types : option (list (string * Z));
  recent_activity : RecentActivity;
  errors : ErrorTotals;
  last_updated : string
}.

(** [queryFn] of [useStats]. *)
Definition useStats_queryFn : Http.t StatsResponse StatsResponse :=
  response ← client_get "/stats" ∅;
  mret response.

End Api.

(* ===================================================================== *)
(** * components/Jobs: the paginated, filtered job list *)
(* ===================================================================== *)

Module JobsView.
Import Api.

(** The four [useState] cells of the component. *)
Record State := mkState {
  jobStatusFilter : string;
  jobTypeFilter : string;
  jobPage : Z;
  jobPageSize : Z
}.

Definition initial : State := mkState "ALL" "ALL" 0 20.

(** What the component sees of the outside on a render: the data the two
    queries hold.  With [placeholderData: keepPreviousData] the jobs query
    keeps showing the previous response while the response to a new key is
    awaited; [None] is a query that has no data yet. *)
Record View := mkView {
  state : State;
  jobsData : option JobsResponse;
  jobTypesData : option (list string)
}.

Definition start : View := mkView initial None None.

(** The argument of [useJobs] on a render. *)
Definition query (st : State) : UseJobsParams :=
  mkUseJobsParams (jobPageSize st) (jobPage st * jobPageSize st)
                  (Some (jobStatusFilter st)) (Some (jobTypeFilter st)).

(** [jobsData?.jobs || []] and [jobsData?.pagination?.total || 0] *)
Definition jobs_shown (v : View) : list Job :=
  match jobsData v with Some d => jobs d | None => [] end.
Definition jobsTotal (v : View) : Z :=
  match jobsData v with Some d => total (pagination d) | None => 0 end.

Definition totalPages (v : View) : Z :=
  Js.ceil_div (jobsTotal v) (jobPageSize (state v)).
Definition canPrev (v : View) : bool := 0 <? jobPage (state v).
Definition canNext (v : View) : bool := jobPage (state v) <? totalPages v - 1.

(** [isLoading] of the jobs query: a first fetch with nothing to show.
    Both page buttons are [hidden] while it holds. *)
Definition jobsLoading (v : View) : bool :=
  match jobsData v with Some _ => false | None => true end.

Definition statusOptions : list string := ["ALL"; "COMPLETED"; "FAILED"; "RUNNING"].
Definition jobTypeOptions (v : View) : list string :=
  "ALL" :: match jobTypesData v with Some l => l | None => [] end.
Definition pageSizeOptions : list Z := [10; 20; 50; 100].

Inductive Icon := CheckCircle | XCircle | PlayCircle | Info.

Definition statusIcon (status : string) : Icon * string :=
  if String.eqb status "COMPLETED" then (CheckCircle, "w-4 h-4 text-green-600")
  else if String.eqb status "FAILED" then (XCircle, "w-4 h-4 text-red-600")
  else if String.eqb status "RUNNING" then (PlayCircle, "w-4 h-4 text-yellow-600")
  else (Info, "w-4 h-4 text-gray-400").

Definition statusColor (status : string) : string :=
  if String.eqb status "COMPLETED" then "text-green-700"
  else if String.eqb status "FAILED" then "text-red-700"
  else if String.eqb status "RUNNING" then "text-yellow-700"
  else "text-gray-700".

(** The label of an [<option>] of the status select. *)
Definition status_option_label (opt : string) : string :=
  if String.eqb opt "ALL" then "All Statuses" else opt.

(** What can happen to the view: the five controls, and a query delivering
    a response. *)
Inductive Event :=
| ChangeStatus (value : string)
| ChangeJobType (value : string)
| ChangePageSize (value : Z)
| ClickPrev
| ClickNext
| JobsArrive (d : JobsResponse)
| JobTypesArrive (l : list string).

(** A select offers its options only; a [disabled] or [hidden] button takes
    no click.  (When the jobs query reports an error the component renders
    the message alone, without any control; that state is left out.) *)
Definition enabled (e : Event) (v : View) : bool :=
  match e with
  | ChangeStatus value => bool_decide (value ∈ statusOptions)
  | ChangeJobType value => bool_decide (value ∈ jobTypeOptions v)
  | ChangePageSize value => bool_decide (value ∈ pageSizeOptions)
  | ClickPrev => negb (jobsLoading v) && canPrev v
  | ClickNext => negb (jobsLoading v) && canNext v
  | JobsArrive _ | JobTypesArrive _ => true
  end.

Definition set_page (p : Z) (st : State) : State :=
  mkState (jobStatusFilter st) (jobTypeFilter st) p (jobPageSize st).

(** The handlers. *)
Definition handle (e : Event) (v : View) : View :=
  let st := state v in
  match e with
  | ChangeStatus value =>
      mkView (set_page 0 (mkState value (jobTypeFilter st) (jobPage st) (jobPageSize st)))
             (jobsData v) (jobTypesData v)
  | ChangeJobType value =>
      mkView (set_page 0 (mkState (jobStatusFilter st) value (jobPage st) (jobPageSize st)))
             (jobsData v) (jobTypesData v)
  | ChangePageSize value =>
      mkView (set_page 0 (mkState (jobStatusFilter st) (jobTypeFilter st) (jobPage st) value))
             (jobsData v) (jobTypesData v)
  | ClickPrev => mkView (set_page (jobPage st - 1) st) (jobsData v) (jobTypesData v)
  | ClickNext => mkView (set_page (jobPage st + 1) st) (jobsData v) (jobTypesData v)
  | JobsArrive d => mkView st (Some d) (jobTypesData v)
  | JobTypesArrive l => mkView st (jobsData v) (Some l)
  end.


Inductive step : View -> View -> Prop :=
| step_event e v : enabled e v = true -> step v (handle e v).

Inductive reachable : View -> Prop :=
| reach_start : reachable start
| reach_step v v' : reachable v -> step v v' -> reachable v'.

(** Running a list of events from a view; [None] when one is not enabled. *)
Fixpoint play (es : list Event) (v : View) : option View :=
  match es with
  | [] => Some v
  | e :: es' => if enabled e v then play es' (handle e v) else None
  end.

(** The bound on the page index the pager is meant to keep. *)
Definition page_in_range (v : View) : Prop :=
  jobPage (state v) < totalPages v \/ jobPage (state v) = 0.

(** The two numbers of [Page {jobPage + 1} of {totalPages || 1}] (the label
    is [hidden] while the query is loading). *)
Definition pageLabel (v : View) : Z * Z :=
  (jobPage (state v) + 1,
   if totalPages v =? 0 then 1 else totalPages v).

(** The label of an [<option>] of the job-type select. *)
Definition type_option_label (opt : string) : string :=
  if String.eqb opt "ALL" then "All Types" else Js.replace_underscores opt.

(** What the table body holds: the loading row, the empty row, or one row per
    job. *)
Inductive Body :=
| LoadingRow
| EmptyRow
| JobRows (rows : list Job).

(** [jobsLoading ? ... : jobs.length === 0 ? ... : jobs.map(...)] *)
Definition tableBody (v : View) : Body :=
  if jobsLoading v then LoadingRow
  else match jobs_shown v with
       | [] => EmptyRow
       | rows => JobRows rows
       end.

(** The cells of a job's row that are computed from the job: the key, the
    job type as shown, and the class, the icon and the text of the status
    cell. *)
Record RowCells := mkRowCells {
  row_key : string;
  shown_type : string;
  status_class : string;
  status_icon : Icon * string;
  status_text : string
}.

Definition rowCells (job : Job) : RowCells :=
  mkRowCells (job_id job)
             (Js.replace_underscores (job_type job))
             ("py-4 px-2 font-semibold flex items-center gap-2 " +:+ statusColor (status job))
             (statusIcon (status job))
             (status job).

(** What the component returns: the error text alone when the query failed,
    the controls and the table otherwise. *)
Inductive Screen :=
| Failure (text : string)
| Page (label : Z * Z) (body : Body).

Definition render (error : option Js.Error) (v : View) : Screen :=
  match error with
  | Some _ => Failure (Js.failure_text error)
  | None => Page (pageLabel v) (tableBody v)
  end.

End JobsView.

(* ===================================================================== *)
(** * components/Dashboard *)
(* ===================================================================== *)

Module Dashboard.
Import Api.

Record StatusDatum := mkStatusDatum {
  sd_name : string;
  sd_value : Z;
  sd_fill : string
}.

Definition statusData (stats : StatsResponse) : list StatusDatum :=
  [ mkStatusDatum "Completed" (completed_jobs (overview stats)) "#85929E";
    mkStatusDatum "Running" (running_jobs (overview stats)) "#F7DC6F";
    mkStatusDatum "Failed" (failed_jobs (overview stats)) "#F1948A" ].

(** [Object.entries(stats.job_types || {})] *)
Definition jobTypeEntries (stats : StatsResponse) : list (string * Z) :=
  match job_types stats with Some l => l | None => [] end.

Record TopJobType := mkTopJobType {
  type : string;
  count : Z;
  percent : option string
}.

(** [((count / totalJobs) * 100).toFixed(1)] *)
Definition percent_of (count totalJobs : Z) : option string :=
  Js.toFixed (Js.of_Z count / Js.of_Z totalJobs * Js.of_Z 100)%float 1.

Definition row (totalJobs : Z) (entry : string * Z) : TopJobType :=
  mkTopJobType (Js.replace_underscores (fst entry)) (snd entry)
               (percent_of (snd entry) totalJobs).

(** [Array.prototype.sort(cmp)]: a stable sort; [a] goes before [b] when
    [cmp a b < 0], and elements that compare equal keep their order. *)
Section Sort.
Context {A : Type} (cmp : A -> A -> Z).

Fixpoint insert (x : A) (l : list A) : list A :=
  match l with
  | [] => [x]
  | y :: l' => if cmp y x <? 0 then y :: insert x l' else x :: y :: l'
  end.

Fixpoint sort (l : list A) : list A :=
  match l with
  | [] => []
  | x :: l' => insert x (sort l')
  end.
End Sort.

(** [(a, b) => b.count - a.count] *)
Definition by_count_desc (a b : TopJobType) : Z := count b - count a.

Definition sorted_rows (stats : StatsResponse) : list TopJobType :=
  sort by_count_desc (map (row (total_jobs (overview stats))) (jobTypeEntries stats)).

(** [.slice(0, 5)] *)
Definition topJobTypes (stats : StatsResponse) : list TopJobType :=
  firstn 5 (sorted_rows stats).

Definition COLORS : list string :=
  ["#F7DC6F"; "#85929E"; "#F1948A"; "#7FB3D5"; "#82ca9d"; "#FFBB28"; "#FF8042"].

(** A slice of the pie; [None] is an [undefined] fill. *)
Record PieDatum := mkPieDatum {
  pie_name : string;
  pie_value : Z;
  pie_fill : option string
}.

(** [jobTypeEntries.map(([type, count], i) => ({ name: type.replace(/_/g, " "),
    value: count, fill: COLORS[i % COLORS.length] }))] *)
Definition jobTypePieData (stats : StatsResponse) : list PieDatum :=
  imap (fun i entry =>
          mkPieDatum (Js.replace_underscores (fst entry)) (snd entry)
                     (COLORS !! (i mod length COLORS)%nat))
       (jobTypeEntries stats).

(** What the component returns: the loading text, the error text, or the
    dashboard of the stats. *)
Inductive Screen :=
| Loading
| Failure (text : string)
| Board (stats : StatsResponse).

(** [if (isLoading) return ...; if (error || !stats) return ...; ...] *)
Definition render (isLoading : bool) (error : option Js.Error)
    (stats : option StatsResponse) : Screen :=
  if isLoading then Loading
  else match error, stats with
       | None, Some st => Board st
       | _, _ => Failure (Js.failure_text error)
       end.

End Dashboard.

(* ===================================================================== *)
(** * components/Nav: the bar with the refresh button *)
(* ===================================================================== *)

(** The variant of the navigation bar that holds the refresh button and the
    stats query (the other variant in the sources has links only and sends
    nothing). *)

Module Nav.
Import Api.

(** [refetch] of the stats query runs its [queryFn] again. *)
Definition refetch : Http.t StatsResponse StatsResponse := useStats_queryFn.

(** A click on the refresh button: [onClick={() => refetch()}], with
    [disabled={isFetching}]. *)
Definition refresh_click (isFetching : bool) : Http.t StatsResponse unit :=
  if isFetching then mret tt
  else _ ← refetch; mret tt.

End Nav.

(* ===================================================================== *)
(** * The data generator, as the specification describes it *)
(* ===================================================================== *)

(** The generator script (spark_data_generator.py) and the API server are not
    among the sources; only the front end is.  What follows is a model of the
    generator written from sections 3 and 4 of the specification: the
    synthesizers take the random source as an explicit argument and hand it
    on, as section 9 asks, and numeric ranges are configuration. *)

Module Generator.

Definition COMPLETED : string := "COMPLETED".
Definition FAILED : string := "FAILED".
Definition SKIPPED : string := "SKIPPED".

(** Modelled from the spec: the caller-supplied random source that is
    threaded through every synthesis call (the generator script,
    spark_data_generator.py, is not among the sources).  [below n] draws an
    integer uniformly among [0 .. n-1]. *)
Class RandomSource (G : Type) := {
  below : Z -> G -> Z * G;
  below_range : forall n g, 0 < n -> 0 <= fst (below n g) < n
}.

(** A synthesis step: it reads the random source and hands it on. *)
Definition Rand (G A : Type) : Type := G -> A * G.

#[global] Instance rand_ret {G} : MRet (Rand G) := fun A a g => (a, g).
#[global] Instance rand_bind {G} : MBind (Rand G) :=
  fun A B f m g => let '(a, g') := m g in f a g'.

(** Modelled from the spec: a catalog entry (section 3, JobCategory): name,
    ordered stage names each with its share weight, duration range,
    resource-use ranges and failure probability. *)
Record JobCategory := mkCategory {
  cat_name : string;
  cat_stages : list (string * Z);
  cat_duration : Z * Z;
  cat_executors : Z * Z;
  cat_memory_mb : Z * Z;
  cat_cores : Z * Z;
  cat_input_mb : Z * Z;
  cat_output_mb : Z * Z;
  cat_shuffle_mb : Z * Z;
  cat_gc_ms : Z * Z;
  cat_failure : Q
}.

(** Modelled from the spec: the configuration of a run (section 4.2 and
    4.4): job count, category table with relative weights, historical
    window, duration floor, the percentage kept of a failed job's data
    volumes, and the warning threshold with its emission probability. *)
Record Config := mkConfig {
  job_count : Z;
  catalog : list (JobCategory * Z);
  window : Z * Z;
  duration_floor : Z;
  failed_data_percent : Z;
  memory_warn_mb : Z;
  warn_probability : Q
}.

(** Modelled from the spec: the Job attributes of section 3. *)
Record Job := mkJob {
  job_id : string;
  job_name : string;
  job_type : string;
  status : string;
  start_time : Z;
  end_time : Z;
  duration_seconds : Z;
  num_executors : Z;
  memory_per_executor_mb : Z;
  cpu_cores_per_executor : Z;
  total_memory_mb : Z;
  input_size_mb : Z;
  output_size_mb : Z;
  shuffle_read_mb : Z;
  shuffle_write_mb : Z;
  gc_time_ms : Z
}.

(** Modelled from the spec: the Operator attributes of section 3. *)
Record Operator := mkOperator {
  op_job_id : string;
  op_position : nat;
  op_name : string;
  op_status : string;
  op_start : Z;
  op_end : Z;
  op_records : Z;
  op_depends_on : option nat
}.

Inductive ErrorKind := JOB_FAILURE | OPERATOR_FAILURE | WARNING.

(** Modelled from the spec: the ErrorRecord attributes of section 3. *)
Record ErrorRecord := mkErrorRecord {
  err_job_id : string;
  err_operator : option nat;
  err_kind : ErrorKind;
  err_message : string;
  err_timestamp : Z;
  err_retry_count : Z;
  err_recoverable : bool
}.

Inductive Fatal := CONFIG_ERROR | INVALID_CATEGORY.

Section Synthesis.
Context {G : Type} `{RandomSource G}.

Definition draw (n : Z) : Rand G Z := below n.

Definition draw_range (r : Z * Z) : Rand G Z :=
  k ← draw (snd r - fst r + 1); mret (fst r + k).

(** A Bernoulli draw with probability [p], in millionths. *)
Definition bernoulli (p : Q) : Rand G bool :=
  u ← draw 1000000; mret (negb (Qle_bool p (Qmake u 1000000))).

Definition total_weight (cats : list (JobCategory * Z)) : Z :=
  fold_right (fun cw acc => snd cw + acc) 0 cats.

Fixpoint pick (cats : list (JobCategory * Z)) (r : Z) : option JobCategory :=
  match cats with
  | [] => None
  | (c, w) :: rest => if r <? w then Some c else pick rest (r - w)
  end.

Definition scale_failed (cfg : Config) (failed : bool) (v : Z) : Z :=
  if failed then v * failed_data_percent cfg / 100 else v.

(** Modelled from the spec: steps 2 to 6 of the Job Synthesizer (section
    4.2), for the category drawn. *)
Definition synth_job_of (cfg : Config) (idx : Z) (cat : JobCategory)
  : Rand G Job :=
  failed ← bernoulli (cat_failure cat);
  d ← draw_range (cat_duration cat);
  let duration := Z.max (duration_floor cfg) d in
  start ← draw_range (window cfg);
  executors ← draw_range (cat_executors cat);
  memory ← draw_range (cat_memory_mb cat);
  cores ← draw_range (cat_cores cat);
  input ← draw_range (cat_input_mb cat);
  output ← draw_range (cat_output_mb cat);
  shuffle_r ← draw_range (cat_shuffle_mb cat);
  shuffle_w ← draw_range (cat_shuffle_mb cat);
  gc ← draw_range (cat_gc_ms cat);
  mret (mkJob ("job_" +:+ pretty idx)
              (cat_name cat +:+ "_" +:+ pretty idx)
              (cat_name cat)
              (if (failed : bool) then FAILED else COMPLETED)
              start (start + duration) duration
              executors memory cores (executors * memory)
              (scale_failed cfg failed input)
              (scale_failed cfg failed output)
              (scale_failed cfg failed shuffle_r)
              (scale_failed cfg failed shuffle_w)
              gc).

(** Modelled from the spec: the Job Synthesizer (section 4.2): the category
    is drawn by the configured relative weights (step 1), then the job. *)
Definition synth_job (cfg : Config) (idx : Z)
  : Rand G (Fatal + JobCategory * Job) :=
  r ← draw (total_weight (catalog cfg));
  match pick (catalog cfg) r with
  | None => mret (inl INVALID_CATEGORY)
  | Some cat => job ← synth_job_of cfg idx cat; mret (inr (cat, job))
  end.

(** Modelled from the spec: the status of the operator at position [i]
    (section 4.3), given the failure point of a failed job ([None] for a
    completed one): COMPLETED before the failure point, FAILED at it,
    SKIPPED after it. *)
Definition status_at (failure_point : option nat) (i : nat) : string :=
  match failure_point with
  | None => COMPLETED
  | Some k =>
      if (i <? k)%nat then COMPLETED
      else if (i =? k)%nat then FAILED
      else SKIPPED
  end.

Definition stage_weight_sum (stages : list (string * Z)) : Z :=
  fold_right (fun sw acc => snd sw + acc) 0 stages.

(** Modelled from the spec: the operators of the stages from position [i] on
    (section 4.3), the first starting at time [t]; a skipped stage has zero
    duration and zero records, and no stage ends after the job. *)
Fixpoint synth_stages (job : Job) (wsum : Z) (failure_point : option nat)
    (stages : list (string * Z)) (i : nat) (t : Z)
  : Rand G (list Operator) :=
  match stages with
  | [] => mret []
  | (name, w) :: rest =>
      let st := status_at failure_point i in
      let skipped := String.eqb st SKIPPED in
      let share := if skipped then 0 else duration_seconds job * w / wsum in
      let stop := Z.min (t + share) (end_time job) in
      drawn ← draw_range (0, input_size_mb job);
      let records := if skipped then 0 else drawn in
      let dep := match i with O => None | S p => Some p end in
      ops ← synth_stages job wsum failure_point rest (S i) stop;
      mret (mkOperator (job_id job) i name st t stop records dep :: ops)
  end.

(** Modelled from the spec: the Operator Synthesizer (section 4.3). *)
Definition synth_operators (cat : JobCategory) (job : Job)
  : Rand G (list Operator) :=
  failure_point ←
    (if String.eqb (status job) FAILED
     then k ← draw (Z.of_nat (length (cat_stages cat))); mret (Some (Z.to_nat k))
     else mret None);
  synth_stages job (stage_weight_sum (cat_stages cat)) failure_point
               (cat_stages cat) 0%nat (start_time job).

Definition failed_operator (ops : list Operator) : option Operator :=
  List.find (fun op => String.eqb (op_status op) FAILED) ops.

(** Modelled from the spec: the Error/Warning Synthesizer (section 4.4). *)
Definition synth_errors (cfg : Config) (job : Job) (ops : list Operator)
  : Rand G (list ErrorRecord) :=
  if String.eqb (status job) FAILED then
    match failed_operator ops with
    | Some op =>
        at_ ← draw_range (op_start op, op_end op);
        retries ← draw_range (0, 3);
        recoverable ← bernoulli (1 # 2);
        cascade ← bernoulli (1 # 2);
        let first :=
          mkErrorRecord (job_id job) (Some (op_position op)) OPERATOR_FAILURE
            (job_type job +:+ ": stage " +:+ op_name op +:+ " failed")
            at_ retries recoverable in
        let summary :=
          mkErrorRecord (job_id job) None JOB_FAILURE
            (job_type job +:+ ": job failed") (end_time job) 0 false in
        mret (if (cascade : bool) then [first; summary] else [first])
    | None => mret []
    end
  else if memory_warn_mb cfg <? memory_per_executor_mb job then
    emit ← bernoulli (warn_probability cfg);
    at_ ← draw_range (start_time job, end_time job);
    mret (if (emit : bool)
          then [mkErrorRecord (job_id job) None WARNING "high memory usage"
                              at_ 0 true]
          else [])
  else mret [].

Record Corpus := mkCorpus {
  jobs : list Job;
  operators : list Operator;
  errors : list ErrorRecord
}.

(** Modelled from the spec: the loop of section 2 over the job indices
    [idx .. idx+n-1], each job followed by its operators and errors. *)
Fixpoint generate_from (cfg : Config) (idx : Z) (n : nat)
  : Rand G (Fatal + Corpus) :=
  match n with
  | O => mret (inr (mkCorpus [] [] []))
  | S n' =>
      r ← synth_job cfg idx;
      match r with
      | inl e => mret (inl e)
      | inr (cat, job) =>
          ops ← synth_operators cat job;
          errs ← synth_errors cfg job ops;
          rest ← generate_from cfg (idx + 1) n';
          mret (match rest with
                | inl e => inl e
                | inr c => inr (mkCorpus (job :: jobs c) (ops ++ operators c)
                                         (errs ++ errors c))
                end)
      end
  end.

(** Modelled from the spec: the configurations that are no CONFIG_ERROR
    (section 7): a job count that is not negative, a category table that is
    not empty, weights that are not negative and sum to more than 0. *)
Definition config_ok (cfg : Config) : bool :=
  (0 <=? job_count cfg)
  && negb (match catalog cfg with [] => true | _ => false end)
  && forallb (fun cw => 0 <=? snd cw) (catalog cfg)
  && (0 <? total_weight (catalog cfg)).

(** Modelled from the spec: the control flow of section 2, up to the
    aggregation. *)
Definition generate (cfg : Config) : Rand G (Fatal + Corpus) :=
  if config_ok cfg
  then generate_from cfg 0 (Z.to_nat (job_count cfg))
  else mret (inl CONFIG_ERROR).

End Synthesis.

(** Modelled from the spec: SummaryStats (section 3), with the last-updated
    timestamp of section 4.5. *)
Record SummaryStats := mkSummary {
  total_jobs : Z;
  completed_jobs : Z;
  failed_jobs : Z;
  success_rate : Q;
  job_types : gmap string Z;
  avg_duration_seconds : Q;
  total_data_processed_mb : Z;
  total_errors : Z;
  total_warnings : Z;
  last_updated : Z
}.

(** Modelled from the spec: the running counts of the Aggregator's pass over
    the jobs (section 4.5). *)
Record Tally := mkTally {
  n_total : Z;
  n_completed : Z;
  n_failed : Z;
  by_type : gmap string Z;
  sum_duration : Z;
  sum_data : Z
}.

Definition tally0 : Tally := mkTally 0 0 0 ∅ 0 0.

Definition indicator (b : bool) : Z := if b then 1 else 0.

Definition tally_job (t : Tally) (j : Job) : Tally :=
  mkTally (n_total t + 1)
          (n_completed t + indicator (String.eqb (status j) COMPLETED))
          (n_failed t + indicator (String.eqb (status j) FAILED))
          (<[job_type j := default 0 (by_type t !! job_type j) + 1]> (by_type t))
          (sum_duration t + duration_seconds j)
          (sum_data t + input_size_mb j + output_size_mb j).

(** Modelled from the spec: a rate (section 4.5), [part / whole], defined as
    0 when [whole] is 0. *)
Definition ratio (part whole : Z) : Q :=
  if whole =? 0 then 0%Q else (inject_Z part / inject_Z whole)%Q.

Definition count_kind (is_kind : ErrorKind -> bool) (errs : list ErrorRecord) : Z :=
  Z.of_nat (length (List.filter (fun e => is_kind (err_kind e)) errs)).

(** Modelled from the spec: the Aggregator (section 4.5), one full pass over
    the corpus; [now] is the wall-clock time of the run. *)
Definition aggregate (c : Corpus) (now : Z) : SummaryStats :=
  let t := fold_left tally_job (jobs c) tally0 in
  mkSummary (n_total t) (n_completed t) (n_failed t)
            (ratio (n_completed t) (n_total t))
            (by_type t)
            (ratio (sum_duration t) (n_total t))
            (sum_data t)
            (count_kind (fun k => match k with WARNING => false | _ => true end) (errors c))
            (count_kind (fun k => match k with WARNING => true | _ => false end) (errors c))
            now.

Inductive Column :=
| Strings (cells : list string)
| Integers (cells : list Z).

(** Modelled from the spec: the Writer's Jobs table (sections 4.6 and 6), a
    flat mapping from column name to typed array with one row per job and
    one column per Job attribute of section 3.  The columns carry the names
    under which the consumer reads those attributes. *)
Definition jobs_table (js : list Job) : list (string * Column) :=
  [ ("job_id", Strings (map job_id js));
    ("job_name", Strings (map job_name js));
    ("job_type", Strings (map job_type js));
    ("status", Strings (map status js));
    ("start_time", Integers (map start_time js));
    ("end_time", Integers (map end_time js));
    ("duration_seconds", Integers (map duration_seconds js));
    ("num_executors", Integers (map num_executors js));
    ("memory_per_executor_mb", Integers (map memory_per_executor_mb js));
    ("cpu_cores_per_executor", Integers (map cpu_cores_per_executor js));
    ("total_memory_mb", Integers (map total_memory_mb js));
    ("input_size_mb", Integers (map input_size_mb js));
    ("output_size_mb", Integers (map output_size_mb js));
    ("shuffle_read_mb", Integers (map shuffle_read_mb js));
    ("shuffle_write_mb", Integers (map shuffle_write_mb js));
    ("gc_time_ms", Integers (map gc_time_ms js)) ].

(** A random source for running the model: a linear congruential
    generator over 64-bit words. *)
Definition lcg_next (g : Z) : Z :=
  (6364136223846793005 * g + 1442695040888963407) mod 2 ^ 64.

Definition lcg_below (n : Z) (g : Z) : Z * Z :=
  let g' := lcg_next g in ((g' / 2 ^ 33) mod n, g').

#[global] Instance lcg_source : RandomSource Z :=
  {| below := lcg_below;
     below_range := fun n g Hn => Z.mod_pos_bound (lcg_next g / 2 ^ 33) n Hn |}.

(** Two categories and a run configuration for running the model. *)
Definition etl : JobCategory :=
  mkCategory "ETL" [("extract", 2); ("transform", 5); ("join", 8); ("load", 3)]
             (60, 600) (2, 10) (1024, 8192) (1, 4) (100, 5000) (50, 2000)
             (10, 1000) (100, 5000) (1 # 10).

Definition training : JobCategory :=
  mkCategory "ML_TRAINING" [("load", 1); ("features", 3); ("train", 12)]
             (600, 7200) (4, 32) (4096, 32768) (2, 8) (1000, 50000) (10, 500)
             (100, 10000) (1000, 60000) (3 # 10).

Definition demo_config (n : Z) : Config :=
  mkConfig n [(etl, 5); (training, 3)] (1700000000, 1702592000) 1 40 16384 (1 # 2).

End Generator.

(* ===================================================================== *)
(** * Vocabulary of the statements, and data for running the models *)
(* ===================================================================== *)

(** The value of a filter parameter on the wire, for the filter value [f] the
    view holds: sent as it is when [f] is set (not the empty string) and is
    not "ALL", and left out otherwise. *)
Definition filter_on_wire (f : string) : option Http.ParamValue :=
  if bool_decide (f <> "" /\ f <> "ALL") then Some (Http.PStr f) else None.

(** The request that [client.get('/stats')] sends. *)
Definition stats_request : Http.Request :=
  Http.mkRequest Http.GET Api.default_baseURL Api.default_headers "/stats" ∅.

(** A backend for running the model: the store counts the writes served, and
    only a request that is not a GET is a write. *)
Definition counting_backend (answer : Api.StatsResponse)
    (rq : Http.Request) (writes : nat) : Api.StatsResponse * nat :=
  match Http.method rq with
  | Http.GET => (answer, writes)
  | _ => (answer, Datatypes.S writes)
  end.

Definition no_stats : Api.StatsResponse :=
  Api.mkStatsResponse (Api.mkOverview 0 0 0 0 0%float)
                      (Api.mkPerformance 0%float "0s" 0%float 0%float)
                      None
                      (Api.mkRecentActivity 0 0)
                      (Api.mkErrorTotals 0 0)
                      "".

(** A backend for running the view: a table of 100 jobs of which 10 have
    failed; it answers the total for the filter asked (the rows of the page
    are left out). *)
Definition hundred_jobs_server (rq : Http.Request) : Api.JobsResponse :=
  let asked := Http.params rq !! "status" in
  let n := match asked with
           | Some (Http.PStr "FAILED") => 10
           | Some (Http.PStr "COMPLETED") => 90
           | Some _ => 0
           | None => 100
           end in
  let num key := match Http.params rq !! key with Some (Http.PNum z) => z | _ => 0 end in
  Api.mkJobsResponse [] (Api.mkPagination n (num "limit") (num "offset")).

(** The response of [hundred_jobs_server] to the query of the view's state
    arrives. *)
Definition arrival (v : JobsView.View) : JobsView.Event :=
  JobsView.JobsArrive
    (Http.result hundred_jobs_server
                 (Api.useJobs_queryFn (JobsView.query (JobsView.state v)))).

(** First page of all jobs shown; the FAILED filter is chosen; Next is
    clicked while the previous response is still the one shown; then the
    response for the new filter arrives. *)
Definition shown_all : JobsView.View := JobsView.handle (arrival JobsView.start) JobsView.start.
Definition chose_failed : JobsView.View := JobsView.handle (JobsView.ChangeStatus "FAILED") shown_all.
Definition clicked_next : JobsView.View := JobsView.handle JobsView.ClickNext chose_failed.
Definition shown_failed : JobsView.View := JobsView.handle (arrival clicked_next) clicked_next.

(** The rows that [slice] leaves out. *)
Definition otherJobTypes (stats : Api.StatsResponse) : list Dashboard.TopJobType :=
  skipn 5 (Dashboard.sorted_rows stats).

(** [a] may stand before [b] in a list in nonincreasing order of count. *)
Definition count_ge (a b : Dashboard.TopJobType) : Prop :=
  Dashboard.count b <= Dashboard.count a.

(** A stats response with seven job types. *)
Definition seven_types : Api.StatsResponse :=
  Api.mkStatsResponse (Api.mkOverview 100 90 10 0 90%float)
                      (Api.mkPerformance 0%float "0s" 0%float 0%float)
                      (Some [("ETL", 30); ("ML_TRAINING", 5); ("ANALYTICS", 30);
                             ("STREAMING", 20); ("REPORTING", 4); ("EXPORT", 10);
                             ("CLEANUP", 1)])
                      (Api.mkRecentActivity 0 0)
                      (Api.mkErrorTotals 0 0)
                      "".

(** The stats of an empty corpus in which the server still lists a job type,
    with count 0. *)
Definition empty_corpus_stats : Api.StatsResponse :=
  Api.mkStatsResponse (Api.mkOverview 0 0 0 0 0%float)
                      (Api.mkPerformance 0%float "0s" 0%float 0%float)
                      (Some [("ETL", 0)])
                      (Api.mkRecentActivity 0 0)
                      (Api.mkErrorTotals 0 0)
                      "2025-01-01T00:00:00".

(** The statuses the consumer knows by name. *)
Definition consumer_statuses : list string := ["COMPLETED"; "FAILED"; "RUNNING"].

(** Modelled from the spec: the Job attributes of section 3, in the order
    listed there (identifier, name, category, status, start and end
    timestamp, duration, executor count, per-executor memory and CPU, total
    memory, input and output data size, shuffle read and write volume,
    garbage-collection time), each under the name of the consumer's member
    that holds it. *)
Definition job_attributes : list string :=
  [ "job_id"; "job_name"; "job_type"; "status"; "start_time"; "end_time";
    "duration_seconds"; "num_executors"; "memory_per_executor_mb";
    "cpu_cores_per_executor"; "total_memory_mb"; "input_size_mb";
    "output_size_mb"; "shuffle_read_mb"; "shuffle_write_mb"; "gc_time_ms" ].

(** The members of the consumer's Job record that are no attribute of
    section 3. *)
Definition consumer_only_members : list string :=
  ["num_stages"; "num_tasks"; "duration_formatted"].

Definition column_length (c : Generator.Column) : nat :=
  match c with
  | Generator.Strings cells => length cells
  | Generator.Integers cells => length cells
  end.

(** A job status of the generator: one of the two. *)
Definition two_valued (j : Generator.Job) : Prop :=
  Generator.status j = Generator.COMPLETED \/ Generator.status j = Generator.FAILED.

Definition is_completed (j : Generator.Job) : bool :=
  String.eqb (Generator.status j) Generator.COMPLETED.
Definition is_failed (j : Generator.Job) : bool :=
  String.eqb (Generator.status j) Generator.FAILED.

(** A failed ETL job for running the synthesizer. *)
Definition failed_etl_job : Generator.Job :=
  Generator.mkJob "job_7" "ETL_7" "ETL" Generator.FAILED
                  1700000000 1700000300 300 4 2048 2 8192 400 100 50 60 900.

(** The characters of a string. *)
Definition chars (s : string) : list ascii := list_ascii_of_string s.

(** The rows whose count is [c], in the order of the list. *)
Definition with_count (c : Z) (rows : list Dashboard.TopJobType)
  : list Dashboard.TopJobType :=
  List.filter (fun r => Dashboard.count r =? c) rows.

(* ===================================================================== *)
(** * Properties of the query hooks *)
(* ===================================================================== *)

Section HookFacts.
Import Http Api.

Lemma requests_client_get {R} (server : Request -> R) url ps :
  requests server (response ← client_get url ps; mret response)
  = [mkRequest GET default_baseURL default_headers url ps].
Proof. reflexivity. Qed.

Lemma set_filter_lookup key v ps :
  set_filter key v ps !! key =
  match v with
  | Some s => if negb (String.eqb s "") && negb (String.eqb s "ALL")
              then Some (PStr s) else ps !! key
  | None => ps !! key
  end.
Proof.
  unfold set_filter. destruct v as [s|]; [|reflexivity].
  simpl. destruct (negb (s =? "")%string && negb (s =? "ALL")%string).
  - apply lookup_insert_eq.
  - reflexivity.
Qed.

Lemma set_filter_lookup_ne key key' v ps :
  key <> key' -> set_filter key v ps !! key' = ps !! key'.
Proof.
  intros Hne. unfold set_filter. destruct v as [s|]; [|reflexivity].
  destruct (Js.truthy (Some s) && negb (s =? "ALL")%string); [|reflexivity].
  by apply lookup_insert_ne.
Qed.

Lemma set_filter_dom key v ps k :
  is_Some (set_filter key v ps !! k) -> k = key \/ is_Some (ps !! k).
Proof.
  destruct (decide (key = k)) as [->|Hne]; [by left|].
  rewrite set_filter_lookup_ne by done. by right.
Qed.

End HookFacts.

(** C8. On every render of the Jobs view, the request that the jobs query
    sends is one GET of /jobs whose parameters are: limit, the selected page
    size; offset, the page index times the page size; status, present exactly
    when the status filter is set and is not "ALL", and then equal to the
    filter value; job_type, likewise for the job-type filter; and nothing
    else. *)
Theorem useJobs_request_parameters :
  forall (server : Http.Request -> Api.JobsResponse) (st : JobsView.State),
    exists rq,
      Http.requests server (Api.useJobs_queryFn (JobsView.query st)) = [rq]
      /\ Http.method rq = Http.GET
      /\ Http.url rq = "/jobs"
      /\ Http.params rq !! "limit" = Some (Http.PNum (JobsView.jobPageSize st))
      /\ Http.params rq !! "offset"
         = Some (Http.PNum (JobsView.jobPage st * JobsView.jobPageSize st))
      /\ Http.params rq !! "status" = filter_on_wire (JobsView.jobStatusFilter st)
      /\ Http.params rq !! "job_type" = filter_on_wire (JobsView.jobTypeFilter st)
      /\ (is_Some (Http.params rq !! "status")
          <-> JobsView.jobStatusFilter st <> "" /\ JobsView.jobStatusFilter st <> "ALL")
      /\ (is_Some (Http.params rq !! "job_type")
          <-> JobsView.jobTypeFilter st <> "" /\ JobsView.jobTypeFilter st <> "ALL")
      /\ (forall k, is_Some (Http.params rq !! k) ->
            k ∈ ["limit"; "offset"; "status"; "job_type"]).
Proof.
  intros server [sf tf page size].
  eexists. split; [apply requests_client_get|]. cbn [Http.method Http.url Http.params].
  unfold Api.useJobs_params, JobsView.query.
  cbn [Api.p_limit Api.p_offset Api.p_status Api.p_job_type JobsView.jobPageSize
       JobsView.jobPage JobsView.jobStatusFilter JobsView.jobTypeFilter].
  assert (Hwire : forall f ps key, ps !! key = None ->
            Api.set_filter key (Some f) ps !! key = filter_on_wire f).
  { intros f ps key Hnone. rewrite set_filter_lookup, Hnone. unfold filter_on_wire.
    destruct (String.eqb_spec f ""), (String.eqb_spec f "ALL"); simpl;
      case_bool_decide as Hd; try reflexivity; try (by destruct Hd);
      exfalso; apply Hd; by split. }
  assert (Hiff : forall f, is_Some (filter_on_wire f) <-> f <> "" /\ f <> "ALL").
  { intros f. unfold filter_on_wire. case_bool_decide as Hd; split; intros Hx.
    - exact Hd.
    - by eexists.
    - by destruct Hx.
    - contradiction. }
  set (base := <["offset" := Http.PNum (page * size)]>
                 (<["limit" := Http.PNum size]> (∅ : gmap string Http.ParamValue))).
  assert (Hlimit : base !! "limit" = Some (Http.PNum size)).
  { unfold base. rewrite lookup_insert_ne by done. apply lookup_insert_eq. }
  assert (Hoffset : base !! "offset" = Some (Http.PNum (page * size))).
  { unfold base. apply lookup_insert_eq. }
  assert (Hother : forall k, k <> "limit" -> k <> "offset" -> base !! k = None).
  { intros k H1 H2. unfold base. rewrite !lookup_insert_ne by done. apply lookup_empty. }
  split_and!.
  - reflexivity.
  - reflexivity.
  - rewrite !set_filter_lookup_ne by done. exact Hlimit.
  - rewrite !set_filter_lookup_ne by done. exact Hoffset.
  - rewrite set_filter_lookup_ne by done. apply Hwire. by apply Hother.
  - apply Hwire. rewrite set_filter_lookup_ne by done. by apply Hother.
  - rewrite set_filter_lookup_ne by done. rewrite Hwire by by apply Hother.
    apply Hiff.
  - rewrite Hwire by (rewrite set_filter_lookup_ne by done; by apply Hother).
    apply Hiff.
  - intros k Hk.
    apply set_filter_dom in Hk as [->|Hk]; [compute_done|].
    apply set_filter_dom in Hk as [->|Hk]; [compute_done|].
    destruct (decide (k = "offset")) as [->|?]; [compute_done|].
    destruct (decide (k = "limit")) as [->|?]; [compute_done|].
    rewrite Hother in Hk by done. by destruct Hk.
Qed.

(* ===================================================================== *)
(** * Properties of the refresh button *)
(* ===================================================================== *)

(** C7. A click on the refresh button sends exactly one request, the GET of
    /stats without parameters that the stats query sends (and none while the
    button is disabled): no request with a writing method and no request to
    another path.  On a backend holding a store, the store after the click is
    the store after serving that one GET; it is the store before the click
    whenever serving GET /stats leaves the store as it is. *)
Theorem refresh_only_rereads_stats :
  forall (S : Type) (serve : Http.Request -> S -> Api.StatsResponse * S)
         (server : Http.Request -> Api.StatsResponse) (s : S) (isFetching : bool),
    Http.requests server (Nav.refresh_click isFetching)
      = (if isFetching then [] else [stats_request])
    /\ Forall (fun rq => Http.method rq = Http.GET /\ Http.url rq = "/stats"
                         /\ Http.params rq = ∅)
              (Http.requests server (Nav.refresh_click isFetching))
    /\ snd (Http.exec serve (Nav.refresh_click isFetching) s)
       = (if isFetching then s else snd (serve stats_request s))
    /\ ((forall s0, snd (serve stats_request s0) = s0) ->
        snd (Http.exec serve (Nav.refresh_click isFetching) s) = s).
Proof.
  intros S serve server s [|]; cbn.
  - split_and!; [reflexivity | constructor | reflexivity | reflexivity].
  - split_and!.
    + reflexivity.
    + repeat constructor.
    + unfold stats_request. destruct (serve _ s) as [r s']. reflexivity.
    + intros Hread. specialize (Hread s). unfold stats_request in Hread.
      destruct (serve _ s) as [r s']. exact Hread.
Qed.

Lemma refresh_only_rereads_stats_witness :
  snd (Http.exec (counting_backend no_stats) (Nav.refresh_click false) 7%nat) = 7%nat.
Proof.
  apply (refresh_only_rereads_stats nat (counting_backend no_stats)
           (fun _ => no_stats) 7%nat false).
  intros s0. reflexivity.
Defined.

(* ===================================================================== *)
(** * Properties of the dashboard's top job types *)
(* ===================================================================== *)

Section SortFacts.
Import Dashboard.

Lemma insert_Permutation {A} (cmp : A -> A -> Z) x l :
  Permutation (insert cmp x l) (x :: l).
Proof.
  induction l as [|y l IH]; simpl; [reflexivity|].
  destruct (cmp y x <? 0); [|reflexivity].
  rewrite IH. apply perm_swap.
Qed.

Lemma sort_Permutation {A} (cmp : A -> A -> Z) l :
  Permutation (sort cmp l) l.
Proof.
  induction l as [|x l IH]; simpl; [reflexivity|].
  rewrite insert_Permutation. by constructor.
Qed.

Lemma insert_sorted x l :
  StronglySorted count_ge l -> StronglySorted count_ge (insert by_count_desc x l).
Proof.
  induction 1 as [|y l Hl IH Hy]; simpl.
  - repeat constructor.
  - unfold by_count_desc at 1. destruct (Z.ltb_spec (count x - count y) 0) as [Hlt|Hge].
    + constructor; [exact IH|].
      eapply Permutation_Forall; [symmetry; apply insert_Permutation|].
      constructor; [unfold count_ge; lia | exact Hy].
    + constructor; [by constructor|].
      constructor; [unfold count_ge; lia|].
      eapply Forall_impl; [exact Hy|]. unfold count_ge. intros z Hz. lia.
Qed.

Lemma sort_sorted l : StronglySorted count_ge (sort by_count_desc l).
Proof.
  induction l as [|x l IH]; simpl; [constructor|]. by apply insert_sorted.
Qed.

Lemma In_firstn {A} n (l : list A) x : In x (firstn n l) -> In x l.
Proof.
  intros Hx. rewrite <- (firstn_skipn n l). apply in_or_app. by left.
Qed.

Lemma In_skipn {A} n (l : list A) x : In x (skipn n l) -> In x l.
Proof.
  intros Hx. rewrite <- (firstn_skipn n l). apply in_or_app. by right.
Qed.

Lemma StronglySorted_firstn {A} (R : A -> A -> Prop) n l :
  StronglySorted R l -> StronglySorted R (firstn n l).
Proof.
  intros Hs. revert n. induction Hs as [|x l Hl IH Hx]; intros [|n]; simpl;
    try constructor.
  - apply IH.
  - rewrite List.Forall_forall in *. intros y Hy. apply Hx.
    eapply In_firstn; exact Hy.
Qed.

Lemma StronglySorted_firstn_skipn {A} (R : A -> A -> Prop) n l :
  StronglySorted R l ->
  forall a b, In a (firstn n l) -> In b (skipn n l) -> R a b.
Proof.
  intros Hs. revert n. induction Hs as [|x l Hl IH Hx]; intros [|n] a b; simpl;
    try tauto.
  intros [<-|Ha] Hb.
  - rewrite List.Forall_forall in Hx. apply Hx.
    eapply In_skipn; exact Hb.
  - eapply IH; eassumption.
Qed.

End SortFacts.

(** C10. For every stats response, the list of top job types has
    min(5, number of job types) rows; its rows are in nonincreasing order of
    count; together with the rows left out it holds exactly the rows of the
    response's job types; and the count of every row in the list is at least
    the count of every row left out. *)
Theorem topJobTypes_are_the_five_largest :
  forall stats : Api.StatsResponse,
    length (Dashboard.topJobTypes stats)
      = Nat.min 5 (length (Dashboard.jobTypeEntries stats))
    /\ StronglySorted count_ge (Dashboard.topJobTypes stats)
    /\ Permutation (Dashboard.topJobTypes stats ++ otherJobTypes stats)
                   (map (Dashboard.row (Api.total_jobs (Api.overview stats)))
                        (Dashboard.jobTypeEntries stats))
    /\ (forall a b, In a (Dashboard.topJobTypes stats) ->
                    In b (otherJobTypes stats) ->
                    Dashboard.count b <= Dashboard.count a).
Proof.
  intros stats. unfold Dashboard.topJobTypes, otherJobTypes.
  split_and!.
  - rewrite length_firstn. unfold Dashboard.sorted_rows.
    rewrite (Permutation_length (sort_Permutation _ _)), length_map. reflexivity.
  - apply StronglySorted_firstn, sort_sorted.
  - rewrite firstn_skipn. apply sort_Permutation.
  - intros a b Ha Hb.
    exact (StronglySorted_firstn_skipn count_ge 5 _ (sort_sorted _) a b Ha Hb).
Qed.

Example topJobTypes_seven :
  map (fun r => (Dashboard.type r, Dashboard.count r, Dashboard.percent r))
      (Dashboard.topJobTypes seven_types)
  = [("ETL", 30, Some "30.0"); ("ANALYTICS", 30, Some "30.0");
     ("STREAMING", 20, Some "20.0"); ("EXPORT", 10, Some "10.0");
     ("ML TRAINING", 5, Some "5.0")].
Proof. vm_compute. reflexivity. Qed.

Lemma topJobTypes_are_the_five_largest_witness :
  Dashboard.count (Dashboard.mkTopJobType "REPORTING" 4 (Some "4.0"))
  <= Dashboard.count (Dashboard.mkTopJobType "ML TRAINING" 5 (Some "5.0")).
Proof.
  apply (proj2 (proj2 (proj2 (topJobTypes_are_the_five_largest seven_types)))).
  - vm_compute. tauto.
  - vm_compute. tauto.
Defined.

(* ===================================================================== *)
(** * The percentage column of the top job types *)
(* ===================================================================== *)

Example percent_of_third : Dashboard.percent_of 1 3 = Some "33.3".
Proof. vm_compute. reflexivity. Qed.

Example percent_of_small : Dashboard.percent_of 1 3000 = Some "0.0".
Proof. vm_compute. reflexivity. Qed.

Example percent_of_all : Dashboard.percent_of 7 7 = Some "100.0".
Proof. vm_compute. reflexivity. Qed.

Example percent_of_eighth : Dashboard.percent_of 1 8 = Some "12.5".
Proof. vm_compute. reflexivity. Qed.

Example percent_of_two_thirds : Dashboard.percent_of 2 3 = Some "66.7".
Proof. vm_compute. reflexivity. Qed.

(** C3. With a total job count of 0 the percentage column is not 0: a job
    type with count 0 is shown with the percentage NaN, and one with a
    positive count with the percentage Infinity. *)
Theorem percent_of_total_on_empty_corpus :
  Dashboard.topJobTypes empty_corpus_stats
    = [Dashboard.mkTopJobType "ETL" 0 (Some "NaN")]
  /\ Dashboard.percent_of 0 0 = Some "NaN"
  /\ Dashboard.percent_of 3 0 = Some "Infinity".
Proof. vm_compute. repeat split. Qed.

(* ===================================================================== *)
(** * Properties of the pager of the Jobs view *)
(* ===================================================================== *)

Section PagerFacts.
Import JobsView.

Lemma play_reachable es : forall v v',
  reachable v -> play es v = Some v' -> reachable v'.
Proof.
  induction es as [|e es IH]; simpl; intros v v' Hv Hplay.
  - by inversion Hplay; subst.
  - destruct (enabled e v) eqn:He; [|discriminate].
    apply (IH (handle e v)); [|exact Hplay].
    eapply reach_step; [exact Hv|]. by constructor.
Qed.

Lemma canPrev_spec v : canPrev v = true <-> 0 < jobPage (state v).
Proof. unfold canPrev. apply Z.ltb_lt. Qed.


Lemma reachable_page_nonneg v :
  reachable v ->
  0 <= jobPage (state v) /\ In (jobPageSize (state v)) pageSizeOptions.
Proof.
  induction 1 as [|v v' Hv [IHpage IHsize] Hstep].
  - split; [simpl; lia | simpl; tauto].
  - destruct Hstep as [e v He]. destruct e; simpl in *;
      try (split; [lia | assumption]).
    + split; [lia|]. apply bool_decide_eq_true in He.
      exact (proj1 (list_elem_of_In _ _) He).
    + apply andb_true_iff in He as [_ He]. apply canPrev_spec in He.
      split; [lia | assumption].
Qed.



End PagerFacts.


Example shown_failed_page :
  JobsView.jobPage (JobsView.state shown_failed) = 1
  /\ JobsView.jobsTotal shown_failed = 10
  /\ JobsView.totalPages shown_failed = 1.
Proof. vm_compute. repeat split. Qed.



(* ===================================================================== *)
(** * Properties of the generator model *)
(* ===================================================================== *)

Section GeneratorFacts.
Import Generator.
Context {G : Type} `{RandomSource G}.

Ltac rand_unfold :=
  unfold draw_range, bernoulli, draw, mbind, rand_bind, mret, rand_ret in *.

Ltac rand_step :=
  match goal with
  | |- context [below ?n ?g] =>
      let k := fresh "k" in let g' := fresh "g" in
      destruct (below n g) as [k g']
  end.

Lemma synth_job_of_status cfg idx cat g :
  status (fst (synth_job_of cfg idx cat g)) = COMPLETED
  \/ status (fst (synth_job_of cfg idx cat g)) = FAILED.
Proof.
  unfold synth_job_of. rand_unfold. repeat rand_step. simpl.
  destruct (negb _); [right | left]; reflexivity.
Qed.

Lemma synth_job_status cfg idx g cat job :
  fst (synth_job cfg idx g) = inr (cat, job) ->
  status job = COMPLETED \/ status job = FAILED.
Proof.
  unfold synth_job. unfold mbind at 1, rand_bind at 1, draw.
  destruct (below _ g) as [r g1].
  destruct (pick (catalog cfg) r) as [c|]; [|discriminate].
  unfold mbind, rand_bind at 1, mret, rand_ret.
  pose proof (synth_job_of_status cfg idx c g1) as Hst.
  destruct (synth_job_of cfg idx c g1) as [j g2]. simpl in *.
  intros [= <- <-]. exact Hst.
Qed.







Lemma fold_tally_counts l : forall t,
  n_total (fold_left tally_job l t) = n_total t + Z.of_nat (length l)
  /\ n_completed (fold_left tally_job l t)
     = n_completed t + Z.of_nat (length (List.filter is_completed l))
  /\ n_failed (fold_left tally_job l t)
     = n_failed t + Z.of_nat (length (List.filter is_failed l)).
Proof.
  induction l as [|j l IH]; intros t; cbn [fold_left List.filter length].
  - lia.
  - destruct (IH (tally_job t j)) as (Ht & Hc & Hf). rewrite Ht, Hc, Hf.
    unfold is_completed at 2, is_failed at 2. cbn [tally_job n_total n_completed n_failed].
    unfold indicator.
    destruct (String.eqb (status j) COMPLETED), (String.eqb (status j) FAILED);
      cbn [length]; lia.
Qed.

Lemma two_valued_partition l :
  Forall two_valued l ->
  (length (List.filter is_completed l) + length (List.filter is_failed l)
   = length l)%nat.
Proof.
  induction 1 as [|j l Hj Hl IH]; [reflexivity|].
  cbn [List.filter length]. unfold is_completed at 1, is_failed at 1.
  destruct Hj as [-> | ->]; cbn; lia.
Qed.

Lemma generate_from_jobs cfg : forall n idx g c,
  fst (generate_from cfg idx n g) = inr c ->
  length (jobs c) = n /\ Forall two_valued (jobs c).
Proof.
  induction n as [|n IH]; intros idx g c; cbn [generate_from].
  - unfold mret, rand_ret. cbn. intros [= <-]. split; [reflexivity | constructor].
  - unfold mbind at 1, rand_bind at 1.
    pose proof (synth_job_status cfg idx g) as Hst.
    destruct (synth_job cfg idx g) as [[e | [cat job]] g1]; [discriminate|].
    unfold mbind, rand_bind, mret, rand_ret.
    destruct (synth_operators cat job g1) as [ops g2].
    destruct (synth_errors cfg job ops g2) as [errs g3].
    specialize (IH (idx + 1) g3).
    destruct (generate_from cfg (idx + 1) n g3) as [[e | c'] g4]; [discriminate|].
    cbn in *. intros [= <-]. destruct (IH c' eq_refl) as [Hlen Hall].
    cbn. split; [congruence|]. constructor; [|exact Hall].
    exact (Hst cat job eq_refl).
Qed.

Lemma pick_total cats : forall r,
  Forall (fun cw : JobCategory * Z => 0 <= snd cw) cats ->
  0 <= r < total_weight cats ->
  exists c, pick cats r = Some c.
Proof.
  induction cats as [|[c w] cats IH]; intros r Hw Hr; cbn in *.
  - lia.
  - destruct (Z.ltb_spec r w); [by exists c|].
    inversion Hw as [|? ? Hw0 Hws]; subst. cbn in Hw0.
    apply IH; [assumption | unfold total_weight; lia].
Qed.

Lemma generate_from_total cfg :
  Forall (fun cw : JobCategory * Z => 0 <= snd cw) (catalog cfg) ->
  0 < total_weight (catalog cfg) ->
  forall n idx g, exists c, fst (generate_from cfg idx n g) = inr c.
Proof.
  intros Hw Hsum. induction n as [|n IH]; intros idx g; cbn [generate_from].
  - eexists. reflexivity.
  - unfold mbind at 1, rand_bind at 1.
    unfold synth_job. unfold mbind at 1, rand_bind at 1, draw.
    pose proof (below_range _ g Hsum) as Hr.
    destruct (below (total_weight (catalog cfg)) g) as [r g0]. cbn in Hr.
    destruct (pick_total _ r Hw Hr) as [cat ->].
    unfold mbind, rand_bind, mret, rand_ret.
    destruct (synth_job_of cfg idx cat g0) as [job g1].
    destruct (synth_operators cat job g1) as [ops g2].
    destruct (synth_errors cfg job ops g2) as [errs g3].
    destruct (IH (idx + 1) g3) as [c' Hc'].
    destruct (generate_from cfg (idx + 1) n g3) as [[e | c''] g4];
      [discriminate|].
    eexists. reflexivity.
Qed.

Lemma generate_total cfg g :
  config_ok cfg = true ->
  exists c, fst (generate cfg g) = inr c
            /\ Z.of_nat (length (jobs c)) = job_count cfg
            /\ Forall two_valued (jobs c).
Proof.
  intros Hok. unfold generate. rewrite Hok.
  unfold config_ok in Hok.
  apply andb_true_iff in Hok as [Hok Hsum].
  apply andb_true_iff in Hok as [Hok Hw].
  apply andb_true_iff in Hok as [Hcount _].
  apply Z.leb_le in Hcount. apply Z.ltb_lt in Hsum.
  assert (Hw' : Forall (fun cw : JobCategory * Z => 0 <= snd cw) (catalog cfg)).
  { apply List.Forall_forall. intros cw Hin.
    rewrite forallb_forall in Hw. apply Z.leb_le. by apply Hw. }
  destruct (generate_from_total cfg Hw' Hsum (Z.to_nat (job_count cfg)) 0 g)
    as [c Hc].
  exists c. split; [exact Hc|].
  destruct (generate_from_jobs cfg _ _ _ _ Hc) as [Hlen Hall].
  split; [rewrite Hlen; lia | exact Hall].
Qed.

Lemma ratio_spec part whole :
  (ratio part whole * inject_Z whole == (if whole =? 0 then 0 else inject_Z part))%Q.
Proof.
  unfold ratio. destruct (Z.eqb_spec whole 0) as [-> | Hne].
  - reflexivity.
  - field. intros Hz. apply Hne.
    change 0%Q with (inject_Z 0) in Hz. apply (proj1 (inject_Z_injective _ _)) in Hz.
    exact Hz.
Qed.

End GeneratorFacts.


Example failed_etl_job_operators :
  map Generator.op_status
      (fst (Generator.synth_operators Generator.etl failed_etl_job (10 : Z)))
  = ["COMPLETED"; "FAILED"; "SKIPPED"; "SKIPPED"].
Proof. vm_compute. reflexivity. Qed.


(** C4. For every valid configuration the generator returns a corpus, and
    the summary the Aggregator computes of it satisfies: total_jobs is the
    number of Job records (the requested job count); completed_jobs and
    failed_jobs are the numbers of COMPLETED and of FAILED jobs and add up to
    total_jobs; success_rate is completed_jobs / total_jobs, and 0 when
    total_jobs is 0. *)
Theorem summary_counts_match_corpus :
  forall (G : Type) (RS : Generator.RandomSource G)
         (cfg : Generator.Config) (g : G) (now : Z),
    Generator.config_ok cfg = true ->
    exists c : Generator.Corpus,
      fst (Generator.generate cfg g) = inr c
      /\ let s := Generator.aggregate c now in
         Generator.total_jobs s = Z.of_nat (length (Generator.jobs c))
         /\ Generator.total_jobs s = Generator.job_count cfg
         /\ Generator.completed_jobs s
            = Z.of_nat (length (List.filter is_completed (Generator.jobs c)))
         /\ Generator.failed_jobs s
            = Z.of_nat (length (List.filter is_failed (Generator.jobs c)))
         /\ Generator.completed_jobs s + Generator.failed_jobs s
            = Generator.total_jobs s
         /\ (Generator.total_jobs s = 0 -> (Generator.success_rate s == 0)%Q)
         /\ (Generator.total_jobs s <> 0 ->
             (Generator.success_rate s
              == inject_Z (Generator.completed_jobs s)
                 / inject_Z (Generator.total_jobs s))%Q)
         /\ (Generator.success_rate s * inject_Z (Generator.total_jobs s)
             == inject_Z (Generator.completed_jobs s))%Q.
Proof.
  intros G RS cfg g now Hok.
  destruct (generate_total cfg g Hok) as (c & Hc & Hcount & Hall).
  exists c. split; [exact Hc|]. cbv zeta.
  unfold Generator.aggregate.
  cbn [Generator.total_jobs Generator.completed_jobs Generator.failed_jobs
       Generator.success_rate].
  destruct (fold_tally_counts (Generator.jobs c) Generator.tally0) as (Ht & Hcm & Hf).
  cbn [Generator.tally0 Generator.n_total Generator.n_completed Generator.n_failed]
    in Ht, Hcm, Hf.
  pose proof (two_valued_partition _ Hall) as Hpart.
  rewrite Z.add_0_l in Ht, Hcm, Hf. rewrite Ht, Hcm, Hf.
  set (nc := length (List.filter is_completed (Generator.jobs c))) in *.
  set (nf := length (List.filter is_failed (Generator.jobs c))) in *.
  set (n := length (Generator.jobs c)) in *.
  split_and!; try lia.
  - intros Hz. unfold Generator.ratio. rewrite Hz. reflexivity.
  - intros Hnz. unfold Generator.ratio.
    destruct (Z.eqb_spec (Z.of_nat n) 0); [contradiction | reflexivity].
  - rewrite ratio_spec.
    destruct (Z.eqb_spec (Z.of_nat n) 0); [|reflexivity].
    assert (nc = 0%nat) as -> by lia. reflexivity.
Qed.

Example demo_summary :
  match fst (Generator.generate (Generator.demo_config 4) (42 : Z)) with
  | inr c =>
      let s := Generator.aggregate c 0 in
      (Generator.total_jobs s, Generator.completed_jobs s, Generator.failed_jobs s,
       Generator.success_rate s) = (4, 1, 3, 1 # 4)
  | inl _ => False
  end.
Proof. vm_compute. reflexivity. Qed.

Lemma summary_counts_match_corpus_witness :
  exists c : Generator.Corpus,
    fst (Generator.generate (Generator.demo_config 4) (42 : Z)) = inr c
    /\ Generator.completed_jobs (Generator.aggregate c 0)
       + Generator.failed_jobs (Generator.aggregate c 0)
       = Generator.total_jobs (Generator.aggregate c 0).
Proof.
  destruct (summary_counts_match_corpus Z Generator.lcg_source
              (Generator.demo_config 4) 42 0 eq_refl)
    as (c & Hc & _ & _ & _ & _ & Hsum & _).
  exists c. split; [exact Hc | exact Hsum].
Defined.

(* ===================================================================== *)
(** * The job-status domain *)
(* ===================================================================== *)

Lemma statusIcon_named s :
  In s consumer_statuses <-> fst (JobsView.statusIcon s) <> JobsView.Info.
Proof.
  unfold JobsView.statusIcon, consumer_statuses.
  destruct (String.eqb_spec s "COMPLETED") as [-> | H1]; [simpl; split; [discriminate | tauto]|].
  destruct (String.eqb_spec s "FAILED") as [-> | H2]; [simpl; split; [discriminate | tauto]|].
  destruct (String.eqb_spec s "RUNNING") as [-> | H3]; [simpl; split; [discriminate | tauto]|].
  simpl. split; [intros [?|[?|[?|[]]]]; congruence | congruence].
Qed.

Lemma statusColor_named s :
  In s consumer_statuses <-> JobsView.statusColor s <> "text-gray-700".
Proof.
  unfold JobsView.statusColor, consumer_statuses.
  destruct (String.eqb_spec s "COMPLETED") as [-> | H1]; [simpl; split; [discriminate | tauto]|].
  destruct (String.eqb_spec s "FAILED") as [-> | H2]; [simpl; split; [discriminate | tauto]|].
  destruct (String.eqb_spec s "RUNNING") as [-> | H3]; [simpl; split; [discriminate | tauto]|].
  simpl. split; [intros [?|[?|[?|[]]]]; congruence | congruence].
Qed.

(** C1 (amended).  Every job the Job Synthesizer produces has status
    COMPLETED or FAILED.  The consumer's job-status domain is COMPLETED,
    FAILED and RUNNING: every status it offers as a filter, the option ALL
    apart, is one of the three; the three are the statuses it shows with an
    icon and a colour of their own; and its dashboard charts the completed,
    the running and the failed jobs. *)
Theorem job_status_domain :
  (forall (G : Type) (RS : Generator.RandomSource G) cfg idx (g : G) cat job,
      fst (Generator.synth_job cfg idx g) = inr (cat, job) ->
      In (Generator.status job) [Generator.COMPLETED; Generator.FAILED])
  /\ (forall s, In s JobsView.statusOptions -> s <> "ALL" -> In s consumer_statuses)
  /\ (forall s, In s consumer_statuses -> In s JobsView.statusOptions)
  /\ (forall s, In s consumer_statuses
                <-> fst (JobsView.statusIcon s) <> JobsView.Info)
  /\ (forall s, In s consumer_statuses
                <-> JobsView.statusColor s <> "text-gray-700")
  /\ (forall stats, map Dashboard.sd_name (Dashboard.statusData stats)
                    = ["Completed"; "Running"; "Failed"]).
Proof.
  split_and!.
  - intros G RS cfg idx g cat job Hjob.
    destruct (synth_job_status cfg idx g cat job Hjob) as [-> | ->]; simpl; tauto.
  - unfold JobsView.statusOptions, consumer_statuses. simpl. intros s Hs Hall.
    intuition congruence.
  - unfold JobsView.statusOptions, consumer_statuses. simpl. tauto.
  - apply statusIcon_named.
  - apply statusColor_named.
  - reflexivity.
Qed.

Lemma job_status_domain_witness : In "RUNNING" consumer_statuses.
Proof.
  apply (proj1 (proj2 job_status_domain) "RUNNING").
  - simpl. tauto.
  - discriminate.
Defined.

(** C1, as stated, fails: RUNNING is a status the consumer filters by and
    shows with an icon of its own, and it is neither COMPLETED nor FAILED. *)
Lemma running_is_a_consumer_status :
  exists s : string,
    In s JobsView.statusOptions
    /\ s <> "ALL"
    /\ JobsView.statusIcon s = (JobsView.PlayCircle, "w-4 h-4 text-yellow-600")
    /\ ~ In s [Generator.COMPLETED; Generator.FAILED].
Proof.
  exists "RUNNING". split_and!.
  - simpl. tauto.
  - discriminate.
  - reflexivity.
  - simpl. intros [H | [H | []]]; discriminate.
Qed.

(* ===================================================================== *)
(** * The columns of the Jobs table and the consumer's Job record *)
(* ===================================================================== *)

(** C6 (amended).  The Jobs table has exactly the Job attributes of the data
    model as its columns, one cell per job in each.  The consumer's Job
    record has a member for every one of these columns, and besides them
    exactly three members: num_stages, num_tasks and duration_formatted. *)
Theorem job_columns_and_consumer_members :
  (forall js, map fst (Generator.jobs_table js) = job_attributes
              /\ Forall (fun col => column_length (snd col) = length js)
                        (Generator.jobs_table js))
  /\ List.NoDup (map fst Api.Job_members)
  /\ (forall c, In c job_attributes -> In c (map fst Api.Job_members))
  /\ (forall m, In m (map fst Api.Job_members) ->
                In m job_attributes \/ In m consumer_only_members)
  /\ (forall m, In m consumer_only_members ->
                In m (map fst Api.Job_members) /\ ~ In m job_attributes)
  /\ Permutation (map fst Api.Job_members) (job_attributes ++ consumer_only_members).
Proof.
  assert (Hnodup : NoDup (map fst Api.Job_members)) by compute_done.
  assert (Hnodup' : NoDup (job_attributes ++ consumer_only_members)) by compute_done.
  assert (Hsub : Forall (fun c => c ∈ map fst Api.Job_members) job_attributes)
    by compute_done.
  assert (Hcover : Forall (fun m => m ∈ job_attributes \/ m ∈ consumer_only_members)
                          (map fst Api.Job_members)) by compute_done.
  assert (Hextra : Forall (fun m => m ∈ map fst Api.Job_members /\ m ∉ job_attributes)
                          consumer_only_members) by compute_done.
  rewrite Forall_forall in Hsub, Hcover, Hextra.
  split_and!.
  - intros js. split; [reflexivity|].
    unfold Generator.jobs_table.
    repeat (constructor; [cbn; apply length_map|]). constructor.
  - by apply NoDup_ListNoDup.
  - intros c Hc. apply list_elem_of_In, Hsub. by apply list_elem_of_In.
  - intros m Hm. apply list_elem_of_In in Hm.
    destruct (Hcover m Hm) as [Hx | Hx]; [left | right]; by apply list_elem_of_In.
  - intros m Hm. apply list_elem_of_In in Hm. destruct (Hextra m Hm) as [H1 H2].
    split; [by apply list_elem_of_In|]. intros Hx. apply H2. by apply list_elem_of_In.
  - apply NoDup_Permutation; [exact Hnodup | exact Hnodup' |].
    intros x. rewrite elem_of_app. split.
    + apply Hcover.
    + intros [Hx | Hx]; [by apply Hsub | by apply Hextra].
Qed.

Lemma job_columns_and_consumer_members_witness :
  In "gc_time_ms" (map fst Api.Job_members).
Proof.
  apply (proj1 (proj2 (proj2 job_columns_and_consumer_members)) "gc_time_ms").
  simpl. tauto.
Defined.

(** C6, as stated, fails: the consumer's Job record has a member that is no
    column of the Jobs table. *)
Lemma consumer_job_has_more_members :
  exists m : string,
    In m (map fst Api.Job_members)
    /\ ~ In m (map fst (Generator.jobs_table [])).
Proof.
  exists "num_stages". split.
  - simpl. tauto.
  - simpl. intros H. repeat (destruct H as [H | H]; [discriminate|]). exact H.
Qed.

(* ===================================================================== *)
(** * Further properties of the jobs query *)
(* ===================================================================== *)

Section QueryFacts.
Import Http Api.

Lemma useJobs_params_lookup a :
  useJobs_params a !! "limit" = Some (PNum (p_limit a))
  /\ useJobs_params a !! "offset" = Some (PNum (p_offset a))
  /\ useJobs_params a !! "status" = p_status a ≫= filter_on_wire
  /\ useJobs_params a !! "job_type" = p_job_type a ≫= filter_on_wire
  /\ (forall k, k <> "limit" -> k <> "offset" -> k <> "status" -> k <> "job_type" ->
                useJobs_params a !! k = None).
Proof.
  destruct a as [lim off st ty]. unfold useJobs_params. cbn [p_limit p_offset p_status p_job_type].
  set (base := <["offset" := PNum off]>
                 (<["limit" := PNum lim]> (∅ : gmap string ParamValue))).
  assert (Hlimit : base !! "limit" = Some (PNum lim)).
  { unfold base. rewrite lookup_insert_ne by done. apply lookup_insert_eq. }
  assert (Hoffset : base !! "offset" = Some (PNum off)).
  { unfold base. apply lookup_insert_eq. }
  assert (Hother : forall k, k <> "limit" -> k <> "offset" -> base !! k = None).
  { intros k H1 H2. unfold base. rewrite !lookup_insert_ne by done. apply lookup_empty. }
  assert (Hwire : forall key v ps, ps !! key = None ->
            set_filter key v ps !! key = v ≫= filter_on_wire).
  { intros key v ps Hnone. rewrite set_filter_lookup, Hnone.
    destruct v as [f|]; [|reflexivity]. cbn. unfold filter_on_wire.
    destruct (String.eqb_spec f ""), (String.eqb_spec f "ALL"); simpl;
      case_bool_decide as Hd; try reflexivity; try (by destruct Hd);
      exfalso; apply Hd; by split. }
  split_and!.
  - rewrite !set_filter_lookup_ne by done. exact Hlimit.
  - rewrite !set_filter_lookup_ne by done. exact Hoffset.
  - rewrite set_filter_lookup_ne by done. apply Hwire. by apply Hother.
  - apply Hwire. rewrite set_filter_lookup_ne by done. by apply Hother.
  - intros k H1 H2 H3 H4. rewrite !set_filter_lookup_ne by done. by apply Hother.
Qed.

Lemma filter_on_wire_Some f val :
  filter_on_wire f = Some val -> val = PStr f /\ f <> "" /\ f <> "ALL".
Proof.
  unfold filter_on_wire. case_bool_decide as Hd; [|discriminate].
  intros [= <-]. by destruct Hd.
Qed.

End QueryFacts.

(** X1.  Whatever arguments the jobs hook is called with (either filter may
    be undefined), every parameter of its request is one of: limit, with the
    limit given; offset, with the offset given; status or job_type, with the
    filter value given, which then is neither the empty string nor "ALL".  A
    filter that is undefined, empty or "ALL" is never sent. *)
Theorem useJobs_sends_no_empty_or_all_filter :
  forall (a : Api.UseJobsParams) (key : string) (val : Http.ParamValue),
    Api.useJobs_params a !! key = Some val ->
    (key = "limit" /\ val = Http.PNum (Api.p_limit a))
    \/ (key = "offset" /\ val = Http.PNum (Api.p_offset a))
    \/ (key = "status" /\ exists s, Api.p_status a = Some s
                                   /\ val = Http.PStr s /\ s <> "" /\ s <> "ALL")
    \/ (key = "job_type" /\ exists s, Api.p_job_type a = Some s
                                     /\ val = Http.PStr s /\ s <> "" /\ s <> "ALL").
Proof.
  intros a key val Hval.
  destruct (useJobs_params_lookup a) as (Hl & Ho & Hs & Ht & Hnone).
  destruct (decide (key = "limit")) as [-> | H1].
  { left. split; [reflexivity | congruence]. }
  destruct (decide (key = "offset")) as [-> | H2].
  { right; left. split; [reflexivity | congruence]. }
  destruct (decide (key = "status")) as [-> | H3].
  { right; right; left. split; [reflexivity|]. rewrite Hs in Hval.
    destruct (Api.p_status a) as [s|]; [|discriminate]. cbn in Hval.
    apply filter_on_wire_Some in Hval as (-> & Hne & Hall). by exists s. }
  destruct (decide (key = "job_type")) as [-> | H4].
  { right; right; right. split; [reflexivity|]. rewrite Ht in Hval.
    destruct (Api.p_job_type a) as [s|]; [|discriminate]. cbn in Hval.
    apply filter_on_wire_Some in Hval as (-> & Hne & Hall). by exists s. }
  rewrite Hnone in Hval by done. discriminate.
Qed.

Lemma useJobs_sends_no_empty_or_all_filter_witness :
  ("status" = "limit" /\ Http.PStr "FAILED" = Http.PNum 50)
  \/ ("status" = "offset" /\ Http.PStr "FAILED" = Http.PNum 100)
  \/ ("status" = "status" /\ exists s, Some "FAILED" = Some s
        /\ Http.PStr "FAILED" = Http.PStr s /\ s <> "" /\ s <> "ALL")
  \/ ("status" = "job_type" /\ exists s, (None : option string) = Some s
        /\ Http.PStr "FAILED" = Http.PStr s /\ s <> "" /\ s <> "ALL").
Proof.
  apply (useJobs_sends_no_empty_or_all_filter
           (Api.mkUseJobsParams 50 100 (Some "FAILED") None) "status" (Http.PStr "FAILED")).
  reflexivity.
Defined.

(** X2.  The request that follows a change of a control asks for the first
    page: after a change of the status filter, of the job-type filter or of
    the page size, the offset sent is 0; the changed control carries its new
    value and the other two parameters are what they were. *)
Theorem request_after_change_starts_at_first_page :
  forall (v : JobsView.View) (value : string) (size : Z),
    let st := JobsView.state v in
    let after e := Api.useJobs_params (JobsView.query (JobsView.state (JobsView.handle e v))) in
    (after (JobsView.ChangeStatus value) !! "offset" = Some (Http.PNum 0)
     /\ after (JobsView.ChangeStatus value) !! "limit" = Some (Http.PNum (JobsView.jobPageSize st))
     /\ after (JobsView.ChangeStatus value) !! "status" = filter_on_wire value
     /\ after (JobsView.ChangeStatus value) !! "job_type"
        = filter_on_wire (JobsView.jobTypeFilter st))
    /\ (after (JobsView.ChangeJobType value) !! "offset" = Some (Http.PNum 0)
        /\ after (JobsView.ChangeJobType value) !! "limit" = Some (Http.PNum (JobsView.jobPageSize st))
        /\ after (JobsView.ChangeJobType value) !! "status"
           = filter_on_wire (JobsView.jobStatusFilter st)
        /\ after (JobsView.ChangeJobType value) !! "job_type" = filter_on_wire value)
    /\ (after (JobsView.ChangePageSize size) !! "offset" = Some (Http.PNum 0)
        /\ after (JobsView.ChangePageSize size) !! "limit" = Some (Http.PNum size)
        /\ after (JobsView.ChangePageSize size) !! "status"
           = filter_on_wire (JobsView.jobStatusFilter st)
        /\ after (JobsView.ChangePageSize size) !! "job_type"
           = filter_on_wire (JobsView.jobTypeFilter st)).
Proof.
  intros v value size st after. subst after st.
  split_and!;
    match goal with
    | |- Api.useJobs_params ?a !! _ = _ =>
        destruct (useJobs_params_lookup a) as (Hl & Ho & Hs & Ht & _)
    end; cbn in *; assumption.
Qed.

(* ===================================================================== *)
(** * Further properties of the pager *)
(* ===================================================================== *)

Section PagingFacts.
Import JobsView.

Lemma view_params_lookup st :
  Api.useJobs_params (query st) !! "limit" = Some (Http.PNum (jobPageSize st))
  /\ Api.useJobs_params (query st) !! "offset"
     = Some (Http.PNum (jobPage st * jobPageSize st))
  /\ Api.useJobs_params (query st) !! "status" = filter_on_wire (jobStatusFilter st)
  /\ Api.useJobs_params (query st) !! "job_type" = filter_on_wire (jobTypeFilter st).
Proof.
  destruct (useJobs_params_lookup (query st)) as (Hl & Ho & Hs & Ht & _).
  split_and!; [exact Hl | exact Ho | exact Hs | exact Ht].
Qed.

Lemma ceil_div_gt a b n : 0 < b -> (n < Js.ceil_div a b <-> n * b < a).
Proof.
  intros Hb. unfold Js.ceil_div.
  pose proof (Z.div_mod (- a) b ltac:(lia)) as Hdm.
  pose proof (Z.mod_pos_bound (- a) b Hb) as Hmod.
  split; intros Hlt; nia.
Qed.

Lemma page_size_positive v : reachable v -> 0 < jobPageSize (state v).
Proof.
  intros Hv. destruct (reachable_page_nonneg v Hv) as [_ Hsize].
  simpl in Hsize. lia.
Qed.

Lemma reachable_status_filter v :
  reachable v -> In (jobStatusFilter (state v)) statusOptions.
Proof.
  induction 1 as [|v v' Hv IH Hstep].
  - simpl. tauto.
  - destruct Hstep as [e v He]. destruct e; try exact IH.
    apply bool_decide_eq_true in He. exact (proj1 (list_elem_of_In _ _) He).
Qed.

End PagingFacts.

(** X3.  In every reachable state of the Jobs view, the request of the jobs
    query has a limit among the offered page sizes, an offset that is not
    negative and is a multiple of the limit, and a status parameter that is
    either absent or one of COMPLETED, FAILED and RUNNING. *)
Theorem reachable_requests_are_well_formed :
  forall v : JobsView.View,
    JobsView.reachable v ->
    let params := Api.useJobs_params (JobsView.query (JobsView.state v)) in
    exists limit offset,
      params !! "limit" = Some (Http.PNum limit)
      /\ params !! "offset" = Some (Http.PNum offset)
      /\ In limit JobsView.pageSizeOptions
      /\ 0 <= offset
      /\ offset mod limit = 0
      /\ (params !! "status" = None
          \/ exists s, params !! "status" = Some (Http.PStr s)
                       /\ In s ["COMPLETED"; "FAILED"; "RUNNING"]).
Proof.
  intros v Hv params.
  destruct (view_params_lookup (JobsView.state v)) as (Hl & Ho & Hs & _).
  destruct (reachable_page_nonneg v Hv) as [Hpage Hsize].
  pose proof (page_size_positive v Hv) as Hpos.
  pose proof (reachable_status_filter v Hv) as Hst.
  exists (JobsView.jobPageSize (JobsView.state v)),
         (JobsView.jobPage (JobsView.state v) * JobsView.jobPageSize (JobsView.state v)).
  subst params. split_and!; try assumption.
  - nia.
  - apply Z.mod_mul. lia.
  - rewrite Hs. unfold filter_on_wire. case_bool_decide as Hd; [right | by left].
    eexists. split; [reflexivity|]. destruct Hd as [_ Hall].
    simpl in Hst. simpl. intuition congruence.
Qed.

Lemma reachable_requests_are_well_formed_witness :
  exists limit offset,
    Api.useJobs_params (JobsView.query (JobsView.state clicked_next)) !! "limit"
      = Some (Http.PNum limit)
    /\ Api.useJobs_params (JobsView.query (JobsView.state clicked_next)) !! "offset"
      = Some (Http.PNum offset)
    /\ In limit JobsView.pageSizeOptions
    /\ 0 <= offset
    /\ offset mod limit = 0.
Proof.
  assert (Hreach : JobsView.reachable clicked_next).
  { apply (play_reachable [arrival JobsView.start; JobsView.ChangeStatus "FAILED";
                           JobsView.ClickNext] JobsView.start); [constructor | reflexivity]. }
  destruct (reachable_requests_are_well_formed clicked_next Hreach)
    as (limit & offset & Hl & Ho & Hin & Hnn & Hmod & _).
  exists limit, offset. split_and!; assumption.
Defined.



(** X5.  In every reachable state in which the total shown is not negative,
    the label "Page x of y" shows numbers x >= 1 and y >= 1, and x <= y
    whenever the page index is below ceil(total / page size) or is 0. *)
Theorem page_label_is_sensible :
  forall v : JobsView.View,
    JobsView.reachable v ->
    0 <= JobsView.jobsTotal v ->
    1 <= fst (JobsView.pageLabel v)
    /\ 1 <= snd (JobsView.pageLabel v)
    /\ (JobsView.page_in_range v ->
        fst (JobsView.pageLabel v) <= snd (JobsView.pageLabel v)).
Proof.
  intros v Hv Htotal.
  destruct (reachable_page_nonneg v Hv) as [Hpage _].
  pose proof (page_size_positive v Hv) as Hpos.
  assert (Hpages : 0 <= JobsView.totalPages v).
  { destruct (Z.le_gt_cases 0 (JobsView.totalPages v)) as [Hle | Hlt]; [exact Hle|].
    assert (Hx : JobsView.totalPages v < 0) by lia.
    unfold JobsView.totalPages in *.
    destruct (Z.le_gt_cases (Js.ceil_div (JobsView.jobsTotal v)
                               (JobsView.jobPageSize (JobsView.state v))) (-1))
      as [Hm | Hm]; [|lia].
    assert (Hc : -1 < Js.ceil_div (JobsView.jobsTotal v)
                        (JobsView.jobPageSize (JobsView.state v))).
    { apply ceil_div_gt; [exact Hpos | lia]. }
    lia. }
  unfold JobsView.pageLabel, JobsView.page_in_range. cbn [fst snd].
  destruct (Z.eqb_spec (JobsView.totalPages v) 0) as [Hz | Hnz]; split_and!; try lia.
Qed.

Lemma page_label_is_sensible_witness :
  1 <= fst (JobsView.pageLabel clicked_next)
  /\ 1 <= snd (JobsView.pageLabel clicked_next).
Proof.
  assert (Hreach : JobsView.reachable clicked_next).
  { apply (play_reachable [arrival JobsView.start; JobsView.ChangeStatus "FAILED";
                           JobsView.ClickNext] JobsView.start); [constructor | reflexivity]. }
  destruct (page_label_is_sensible clicked_next Hreach) as (H1 & H2 & _).
  - vm_compute. discriminate.
  - split; assumption.
Defined.

(** X6.  Next and Prev undo each other.  In a reachable state where Next is
    enabled, Prev is enabled after the click on Next and leads back to the
    same state; where Prev is enabled and the page index is below
    ceil(total / page size), Next is enabled after the click on Prev and
    leads back to the same state. *)
Theorem next_and_prev_undo_each_other :
  forall v : JobsView.View,
    JobsView.reachable v ->
    (JobsView.enabled JobsView.ClickNext v = true ->
     JobsView.enabled JobsView.ClickPrev (JobsView.handle JobsView.ClickNext v) = true
     /\ JobsView.handle JobsView.ClickPrev (JobsView.handle JobsView.ClickNext v) = v)
    /\ (JobsView.enabled JobsView.ClickPrev v = true ->
        JobsView.jobPage (JobsView.state v) < JobsView.totalPages v ->
        JobsView.enabled JobsView.ClickNext (JobsView.handle JobsView.ClickPrev v) = true
        /\ JobsView.handle JobsView.ClickNext (JobsView.handle JobsView.ClickPrev v) = v).
Proof.
  intros v Hv. destruct (reachable_page_nonneg v Hv) as [Hpage _].
  destruct v as [[sf tf page size] data types]. cbn in Hpage.
  unfold JobsView.enabled, JobsView.jobsLoading, JobsView.canPrev, JobsView.canNext,
    JobsView.totalPages, JobsView.jobsTotal, JobsView.handle, JobsView.set_page.
  cbn [JobsView.state JobsView.jobsData JobsView.jobTypesData JobsView.jobPage
       JobsView.jobPageSize JobsView.jobStatusFilter JobsView.jobTypeFilter].
  split.
  - intros He. apply andb_true_iff in He as [Hload Hnext]. apply Z.ltb_lt in Hnext.
    split.
    + rewrite Hload. apply Z.ltb_lt. lia.
    + do 2 f_equal. lia.
  - intros He Hin. apply andb_true_iff in He as [Hload Hprev]. apply Z.ltb_lt in Hprev.
    split.
    + rewrite Hload. apply Z.ltb_lt. lia.
    + do 2 f_equal. lia.
Qed.

Lemma next_and_prev_undo_each_other_witness :
  JobsView.handle JobsView.ClickPrev (JobsView.handle JobsView.ClickNext shown_all)
  = shown_all.
Proof.
  assert (Hreach : JobsView.reachable shown_all).
  { apply (play_reachable [arrival JobsView.start] JobsView.start);
      [constructor | reflexivity]. }
  apply (proj1 (next_and_prev_undo_each_other shown_all Hreach)).
  reflexivity.
Defined.

(* ===================================================================== *)
(** * Further properties of the dashboard and of the job rows *)
(* ===================================================================== *)

Section ShownFacts.
Import Dashboard.

Lemma replace_no_underscore s : ~ In "_"%char (chars (Js.replace_underscores s)).
Proof.
  induction s as [|c s IH]; simpl; [tauto|].
  intros [Hc | Hin]; [|exact (IH Hin)].
  destruct (Ascii.eqb_spec c "_"); [discriminate | congruence].
Qed.

Lemma replace_length s :
  String.length (Js.replace_underscores s) = String.length s.
Proof. induction s as [|c s IH]; simpl; congruence. Qed.

Lemma replace_without_underscore s :
  ~ In "_"%char (chars s) -> Js.replace_underscores s = s.
Proof.
  induction s as [|c s IH]; simpl; [reflexivity|]. intros Hno.
  destruct (Ascii.eqb_spec c "_") as [-> | Hne]; [tauto|].
  rewrite IH; [reflexivity | tauto].
Qed.

Lemma In_sorted_rows stats r :
  In r (sorted_rows stats) ->
  exists entry, In entry (jobTypeEntries stats)
                /\ r = row (Api.total_jobs (Api.overview stats)) entry.
Proof.
  unfold sorted_rows. intros Hr.
  apply (Permutation_in _ (sort_Permutation _ _)) in Hr.
  apply in_map_iff in Hr as (entry & <- & Hin). by exists entry.
Qed.

Lemma In_topJobTypes stats r :
  In r (topJobTypes stats) ->
  exists entry, In entry (jobTypeEntries stats)
                /\ r = row (Api.total_jobs (Api.overview stats)) entry.
Proof. intros Hr. apply In_sorted_rows. eapply In_firstn. exact Hr. Qed.

Lemma insert_with_count c x l :
  with_count c (insert by_count_desc x l) = with_count c (x :: l).
Proof.
  unfold with_count. induction l as [|y l IH]; [reflexivity|].
  cbn [insert]. unfold by_count_desc at 1.
  destruct (Z.ltb_spec (count x - count y) 0) as [Hlt | Hge]; [|reflexivity].
  cbn [List.filter] in *. rewrite IH.
  destruct (Z.eqb_spec (count y) c), (Z.eqb_spec (count x) c); try reflexivity. lia.
Qed.

Lemma sort_with_count c l :
  with_count c (sort by_count_desc l) = with_count c l.
Proof.
  induction l as [|x l IH]; [reflexivity|].
  cbn [sort]. rewrite insert_with_count. unfold with_count in *.
  cbn [List.filter]. by rewrite IH.
Qed.

End ShownFacts.

(** X7.  No job-type name is shown with an underscore: not in a row of the
    top job types, not in a slice of the pie, not in a row of the job list
    (where the name shown is as long as the job's type) and not in a label
    of the job-type select.  A name without an underscore is shown as it
    is. *)
Theorem shown_job_types_have_no_underscore :
  (forall stats r, In r (Dashboard.topJobTypes stats) ->
                   ~ In "_"%char (chars (Dashboard.type r)))
  /\ (forall stats d, In d (Dashboard.jobTypePieData stats) ->
                      ~ In "_"%char (chars (Dashboard.pie_name d)))
  /\ (forall job,
        ~ In "_"%char (chars (JobsView.shown_type (JobsView.rowCells job)))
        /\ String.length (JobsView.shown_type (JobsView.rowCells job))
           = String.length (Api.job_type job))
  /\ (forall opt, ~ In "_"%char (chars (JobsView.type_option_label opt)))
  /\ (forall name, ~ In "_"%char (chars name) ->
                   Js.replace_underscores name = name).
Proof.
  split_and!.
  - intros stats r Hr. apply In_topJobTypes in Hr as (entry & _ & ->).
    apply replace_no_underscore.
  - intros stats d Hd. apply list_elem_of_In in Hd.
    apply elem_of_lookup_imap_1 in Hd as (i & entry & -> & _).
    apply replace_no_underscore.
  - intros job. split; [apply replace_no_underscore | apply replace_length].
  - intros opt. unfold JobsView.type_option_label.
    destruct (String.eqb opt "ALL"); [|apply replace_no_underscore].
    simpl. intros H. repeat (destruct H as [H | H]; [discriminate|]). exact H.
  - apply replace_without_underscore.
Qed.

Lemma shown_job_types_have_no_underscore_witness :
  Js.replace_underscores "ETL" = "ETL".
Proof.
  apply (proj2 (proj2 (proj2 (proj2 shown_job_types_have_no_underscore))) "ETL").
  simpl. intros H. repeat (destruct H as [H | H]; [discriminate|]). exact H.
Defined.

(** X8.  The sort of the top job types is stable: the rows of one and the
    same count stand in the table in the order in which the response lists
    their job types (those that are among the first five). *)
Theorem top_job_types_keep_response_order_among_ties :
  forall (stats : Api.StatsResponse) (c : Z),
    with_count c (Dashboard.sorted_rows stats)
      = with_count c (map (Dashboard.row (Api.total_jobs (Api.overview stats)))
                          (Dashboard.jobTypeEntries stats))
    /\ exists rest,
         with_count c (map (Dashboard.row (Api.total_jobs (Api.overview stats)))
                           (Dashboard.jobTypeEntries stats))
         = (with_count c (Dashboard.topJobTypes stats) ++ rest)%list.
Proof.
  intros stats c.
  assert (Hs : with_count c (Dashboard.sorted_rows stats)
               = with_count c (map (Dashboard.row (Api.total_jobs (Api.overview stats)))
                                   (Dashboard.jobTypeEntries stats))).
  { unfold Dashboard.sorted_rows. apply sort_with_count. }
  split; [exact Hs|].
  exists (with_count c (skipn 5 (Dashboard.sorted_rows stats))).
  rewrite <- Hs. unfold Dashboard.topJobTypes, with_count.
  rewrite <- List.filter_app, firstn_skipn. reflexivity.
Qed.

(** X9.  The pie has one slice per job type of the response, in the order of
    the response, with the job type's count as its value; the fill of a
    slice is never undefined: it is the colour of COLORS at the slice's
    index modulo 7, so slices seven apart have the same fill. *)
Theorem pie_slices_cycle_through_colors :
  forall stats : Api.StatsResponse,
    length (Dashboard.jobTypePieData stats) = length (Dashboard.jobTypeEntries stats)
    /\ (forall i entry,
          Dashboard.jobTypeEntries stats !! i = Some entry ->
          exists colour,
            Dashboard.jobTypePieData stats !! i
              = Some (Dashboard.mkPieDatum (Js.replace_underscores (fst entry))
                                           (snd entry) (Some colour))
            /\ In colour Dashboard.COLORS
            /\ Dashboard.COLORS !! (i mod 7)%nat = Some colour)
    /\ (forall d, In d (Dashboard.jobTypePieData stats) ->
                  Dashboard.pie_fill d <> None)
    /\ (forall i d d',
          Dashboard.jobTypePieData stats !! i = Some d ->
          Dashboard.jobTypePieData stats !! (i + 7)%nat = Some d' ->
          Dashboard.pie_fill d = Dashboard.pie_fill d').
Proof.
  intros stats.
  assert (Hcol : forall i, exists colour,
             Dashboard.COLORS !! (i mod length Dashboard.COLORS)%nat = Some colour
             /\ In colour Dashboard.COLORS).
  { intros i.
    destruct (lookup_lt_is_Some_2 Dashboard.COLORS (i mod length Dashboard.COLORS)%nat)
      as [colour Hc].
    - apply Nat.mod_upper_bound. discriminate.
    - exists colour. split; [exact Hc|].
      apply list_elem_of_In, list_elem_of_lookup. by exists (i mod length Dashboard.COLORS)%nat. }
  unfold Dashboard.jobTypePieData. split_and!.
  - apply length_imap.
  - intros i entry Hentry. destruct (Hcol i) as (colour & Hc & Hin).
    exists colour. rewrite list_lookup_imap, Hentry.
    cbn [fmap option_fmap option_map]. rewrite Hc.
    split_and!; [reflexivity | exact Hin | exact Hc].
  - intros d Hd. apply list_elem_of_In in Hd.
    apply elem_of_lookup_imap_1 in Hd as (i & entry & -> & _).
    destruct (Hcol i) as (colour & Hc & _). cbn [Dashboard.pie_fill].
    rewrite Hc. discriminate.
  - intros i d d'.
    assert (Hm : ((i + 7) mod length Dashboard.COLORS
                  = i mod length Dashboard.COLORS)%nat).
    { change (length Dashboard.COLORS) with 7%nat.
      rewrite <- (Nat.Div0.add_mod_idemp_r i 7 7), Nat.Div0.mod_same, Nat.add_0_r.
      reflexivity. }
    rewrite !list_lookup_imap. cbv beta. rewrite Hm.
    destruct (Dashboard.jobTypeEntries stats !! i) as [e|]; [|discriminate].
    destruct (Dashboard.jobTypeEntries stats !! (i + 7)%nat) as [e'|]; [|discriminate].
    intros Hd Hd'. injection Hd as <-. injection Hd' as <-. reflexivity.
Qed.

Lemma pie_slices_cycle_through_colors_witness :
  exists colour,
    Dashboard.jobTypePieData seven_types !! 6%nat
      = Some (Dashboard.mkPieDatum "CLEANUP" 1 (Some colour))
    /\ In colour Dashboard.COLORS
    /\ Dashboard.COLORS !! (6 mod 7)%nat = Some colour.
Proof.
  apply (proj1 (proj2 (pie_slices_cycle_through_colors seven_types)) 6%nat ("CLEANUP", 1)).
  reflexivity.
Defined.

(** X10.  Every row of the top job types shows a job type of the response
    under the name and with the count that its slice of the pie has; and
    when the response has at most five job types, every one of them has a
    row. *)
Theorem top_rows_match_pie_slices :
  forall stats : Api.StatsResponse,
    (forall r, In r (Dashboard.topJobTypes stats) ->
       exists d, In d (Dashboard.jobTypePieData stats)
                 /\ Dashboard.pie_name d = Dashboard.type r
                 /\ Dashboard.pie_value d = Dashboard.count r)
    /\ ((length (Dashboard.jobTypeEntries stats) <= 5)%nat ->
        forall entry, In entry (Dashboard.jobTypeEntries stats) ->
          exists r, In r (Dashboard.topJobTypes stats)
                    /\ Dashboard.type r = Js.replace_underscores (fst entry)
                    /\ Dashboard.count r = snd entry).
Proof.
  intros stats. split.
  - intros r Hr. apply In_topJobTypes in Hr as (entry & Hin & ->).
    apply list_elem_of_In, list_elem_of_lookup in Hin as [i Hi].
    eexists. split.
    + apply list_elem_of_In. unfold Dashboard.jobTypePieData.
      eapply elem_of_lookup_imap_2. exact Hi.
    + split; reflexivity.
  - intros Hlen entry Hin.
    exists (Dashboard.row (Api.total_jobs (Api.overview stats)) entry).
    split; [|split; reflexivity].
    unfold Dashboard.topJobTypes. rewrite firstn_all2.
    + unfold Dashboard.sorted_rows.
      apply (Permutation_in _ (Permutation_sym (sort_Permutation _ _))).
      by apply in_map.
    + unfold Dashboard.sorted_rows.
      rewrite (Permutation_length (sort_Permutation _ _)), length_map. exact Hlen.
Qed.

Lemma top_rows_match_pie_slices_witness :
  exists d, In d (Dashboard.jobTypePieData seven_types)
            /\ Dashboard.pie_name d = "ML TRAINING"
            /\ Dashboard.pie_value d = 5.
Proof.
  apply (proj1 (top_rows_match_pie_slices seven_types)
               (Dashboard.mkTopJobType "ML TRAINING" 5 (Some "5.0"))).
  vm_compute. tauto.
Defined.

(* ===================================================================== *)
(** * What the two pages show *)
(* ===================================================================== *)

Section ScreenFacts.



End ScreenFacts.





(** X13.  The status cell of a job's row shows the job's status as it is,
    and its icon and its colour always go together: the green check for
    COMPLETED, the red cross for FAILED, the yellow play sign for RUNNING,
    and the gray info sign for every other status string (matching is exact,
    so also for a status in another letter case). *)
Theorem status_cell_icon_and_colour_agree :
  forall job : Api.Job,
    let cells := JobsView.rowCells job in
    JobsView.status_text cells = Api.status job
    /\ JobsView.row_key cells = Api.job_id job
    /\ ((Api.status job = "COMPLETED"
         /\ JobsView.status_icon cells = (JobsView.CheckCircle, "w-4 h-4 text-green-600")
         /\ JobsView.statusColor (Api.status job) = "text-green-700")
        \/ (Api.status job = "FAILED"
            /\ JobsView.status_icon cells = (JobsView.XCircle, "w-4 h-4 text-red-600")
            /\ JobsView.statusColor (Api.status job) = "text-red-700")
        \/ (Api.status job = "RUNNING"
            /\ JobsView.status_icon cells = (JobsView.PlayCircle, "w-4 h-4 text-yellow-600")
            /\ JobsView.statusColor (Api.status job) = "text-yellow-700")
        \/ (~ In (Api.status job) consumer_statuses
            /\ JobsView.status_icon cells = (JobsView.Info, "w-4 h-4 text-gray-400")
            /\ JobsView.statusColor (Api.status job) = "text-gray-700"))
    /\ JobsView.status_class cells
       = "py-4 px-2 font-semibold flex items-center gap-2 "
         +:+ JobsView.statusColor (Api.status job).
Proof.
  intros job cells. subst cells. unfold JobsView.rowCells.
  cbn [JobsView.status_text JobsView.row_key JobsView.status_icon JobsView.status_class].
  split_and!; try reflexivity.
  unfold JobsView.statusIcon, JobsView.statusColor, consumer_statuses.
  destruct (String.eqb_spec (Api.status job) "COMPLETED") as [H1 | H1];
    [left; by split_and! |].
  destruct (String.eqb_spec (Api.status job) "FAILED") as [H2 | H2];
    [right; left; by split_and! |].
  destruct (String.eqb_spec (Api.status job) "RUNNING") as [H3 | H3];
    [right; right; left; by split_and! |].
  right; right; right. split_and!; try reflexivity.
  simpl. intuition congruence.
Qed.



(** X15.  Consecutive pages tile the result: the request after a click on
    Next asks for the offset of the request before plus the limit, the one
    after a click on Prev for that offset minus the limit, and either click
    leaves the limit and both filter parameters as they were. *)
Theorem next_and_prev_move_the_offset_by_the_limit :
  forall (v : JobsView.View) (limit offset : Z),
    let before := Api.useJobs_params (JobsView.query (JobsView.state v)) in
    let after e :=
      Api.useJobs_params (JobsView.query (JobsView.state (JobsView.handle e v))) in
    before !! "limit" = Some (Http.PNum limit) ->
    before !! "offset" = Some (Http.PNum offset) ->
    after JobsView.ClickNext !! "offset" = Some (Http.PNum (offset + limit))
    /\ after JobsView.ClickPrev !! "offset" = Some (Http.PNum (offset - limit))
    /\ (forall e, e = JobsView.ClickNext \/ e = JobsView.ClickPrev ->
          after e !! "limit" = before !! "limit"
          /\ after e !! "status" = before !! "status"
          /\ after e !! "job_type" = before !! "job_type").
Proof.
  intros v limit offset before after Hlimit Hoffset. subst before after.
  destruct (view_params_lookup (JobsView.state v)) as (Hl & Ho & Hs & Ht).
  rewrite Hl in Hlimit. rewrite Ho in Hoffset.
  injection Hlimit as <-. injection Hoffset as <-.
  destruct (view_params_lookup (JobsView.state (JobsView.handle JobsView.ClickNext v)))
    as (Hl1 & Ho1 & Hs1 & Ht1).
  destruct (view_params_lookup (JobsView.state (JobsView.handle JobsView.ClickPrev v)))
    as (Hl2 & Ho2 & Hs2 & Ht2).
  cbn [JobsView.handle JobsView.state JobsView.set_page JobsView.jobPage
       JobsView.jobPageSize JobsView.jobStatusFilter JobsView.jobTypeFilter]
    in Hl1, Ho1, Hs1, Ht1, Hl2, Ho2, Hs2, Ht2.
  split_and!.
  - refine (eq_trans Ho1 _). do 2 f_equal. ring.
  - refine (eq_trans Ho2 _). do 2 f_equal. ring.
  - intros e [-> | ->].
    + exact (conj (eq_trans Hl1 (eq_sym Hl))
               (conj (eq_trans Hs1 (eq_sym Hs)) (eq_trans Ht1 (eq_sym Ht)))).
    + exact (conj (eq_trans Hl2 (eq_sym Hl))
               (conj (eq_trans Hs2 (eq_sym Hs)) (eq_trans Ht2 (eq_sym Ht)))).
Qed.

Lemma next_and_prev_move_the_offset_by_the_limit_witness :
  Api.useJobs_params
    (JobsView.query (JobsView.state (JobsView.handle JobsView.ClickNext clicked_next)))
    !! "offset" = Some (Http.PNum (20 + 20)).
Proof.
  apply (next_and_prev_move_the_offset_by_the_limit clicked_next 20 20);
    reflexivity.
Defined.
